(** * DayZ types.xml generator: record model and collection manager

    A shallow embedding of [types_generator.py]: the [TypeEntry] data class
    with its two XML conversions ([from_xml], [to_xml]), the slots of
    [MainWindow] that manage the collection ([save_selected_changes],
    [duplicate_type], [delete_type], [new_type], [action_new],
    [action_import], the tree of [action_export], [action_load_presets]) and
    what the editor widgets compute ([ListEditor._add_text],
    [TypeEditor.set_category_options], [TypeEditor.collect_entry]).

    Conventions of the embedding.
    - A Python [str] is a [string]; its characters are read as the code
      points 0..255.
    - A Python [int] is a [Z].  The conversion between [int] and [str] is the
      mathematical one: the interpreter's configurable limit on the number of
      digits of such a conversion is not part of the model.
    - A Python [dict] is a [gmap] (equality of dicts ignores the order of
      insertion, as equality of [gmap]s does), a Python [set] a [gset], a
      Python [list] a [list].
    - An exception is a value of [Py.exn]; code that can raise lives in
      [Py.result], and [try ... except ValueError] is
      [Py.try_except_ValueError]. *)

From Stdlib Require Import ZArith Ascii.
From stdpp Require Import gmap strings list fin_maps sorting.

(** ** The Python built-ins the program relies on *)

Module Py.

Inductive exn : Type :=
| ValueError
| AttributeError
| IndexError
| NameError (ident : string)
| ParseError.

Definition result (A : Type) : Type := (exn + A)%type.

Definition ret {A : Type} (a : A) : result A := inr a.
Definition raise {A : Type} (e : exn) : result A := inl e.

Definition bind {A B : Type} (c : result A) (k : A → result B) : result B :=
  match c with
  | inl e => inl e
  | inr a => k a
  end.

Definition is_ValueError (e : exn) : bool :=
  match e with ValueError => true | _ => false end.

(** [try: c  except ValueError: handler] *)
Definition try_except_ValueError {A : Type} (c handler : result A) : result A :=
  match c with
  | inl e => if is_ValueError e then handler else inl e
  | inr a => inr a
  end.

(** Monadic left-to-right loop, [for x in xs: acc = body acc x]. *)
Fixpoint for_each {A S : Type} (body : S → A → result S) (xs : list A) (acc : S)
  : result S :=
  match xs with
  | [] => ret acc
  | x :: xs' => bind (body acc x) (for_each body xs')
  end.

(** [str.isspace] on the code points below 256: TAB..CR, FS..US, SPACE, NEL
    and NBSP.  This is the set [str.strip()] removes. *)
Definition isspace (c : ascii) : bool :=
  let n := N_of_ascii c in
  ((9 <=? n) && (n <=? 13) || (28 <=? n) && (n <=? 32)
   || (n =? 133) || (n =? 160))%N.

(** The white space [int(s)] skips around the literal: the C-locale space
    characters and the two non-ASCII spaces below 256. *)
Definition int_space (c : ascii) : bool :=
  let n := N_of_ascii c in
  ((9 <=? n) && (n <=? 13) || (n =? 32) || (n =? 133) || (n =? 160))%N.

Fixpoint lstrip (sp : ascii → bool) (s : string) : string :=
  match s with
  | EmptyString => EmptyString
  | String c s' => if sp c then lstrip sp s' else s
  end.

Fixpoint rstrip (sp : ascii → bool) (s : string) : string :=
  match s with
  | EmptyString => EmptyString
  | String c s' =>
      match rstrip sp s' with
      | EmptyString => if sp c then EmptyString else String c EmptyString
      | r => String c r
      end
  end.

Definition strip_with (sp : ascii → bool) (s : string) : string :=
  lstrip sp (rstrip sp s).

(** [s.strip()] *)
Definition strip : string → string := strip_with isspace.

Definition digit_of (c : ascii) : option Z :=
  let n := N_of_ascii c in
  if ((48 <=? n) && (n <=? 57))%N then Some (Z.of_N n - 48)%Z else None.

(** The digit part of a base-10 literal: digits, with single underscores
    allowed between two digits.  [after_digit] tells whether the previous
    character was a digit; [acc] is the value read so far. *)
Fixpoint int_digits (s : string) (acc : Z) (after_digit : bool) : option Z :=
  match s with
  | EmptyString => if after_digit then Some acc else None
  | String c s' =>
      if Ascii.eqb c "_"%char then
        if after_digit then int_digits s' acc false else None
      else
        match digit_of c with
        | Some d => int_digits s' (10 * acc + d)%Z true
        | None => None
        end
  end.

Definition int_literal (s : string) : option Z :=
  match s with
  | String c s' =>
      if Ascii.eqb c "-"%char then Z.opp <$> int_digits s' 0%Z false
      else if Ascii.eqb c "+"%char then int_digits s' 0%Z false
      else int_digits s 0%Z false
  | EmptyString => None
  end.

(** [int(s)] for a string [s], base 10; [ValueError] when [s] is no literal. *)
Definition int (s : string) : result Z :=
  match int_literal (strip_with int_space s) with
  | Some z => ret z
  | None => raise ValueError
  end.

Definition digit_char (d : Z) : ascii := ascii_of_N (Z.to_N (48 + d)).

(** Decimal digits of [n >= 0], most significant first, put in front of
    [acc]; [fuel] bounds the number of digits. *)
Fixpoint str_digits (fuel : nat) (n : Z) (acc : string) : string :=
  match fuel with
  | O => acc
  | S fuel' =>
      let acc' := String (digit_char (n mod 10)) acc in
      if (n <? 10)%Z then acc' else str_digits fuel' (n / 10) acc'
  end.

Definition digits_bound (n : Z) : nat := S (Z.to_nat (Z.log2 n)).

(** [str(z)] for an integer [z]. *)
Definition str (z : Z) : string :=
  if (z <? 0)%Z then String "-"%char (str_digits (digits_bound (- z)) (- z) "")
  else str_digits (digits_bound z) z "".

(** Truth value of a string, [bool(s)]. *)
Definition truthy (s : string) : bool := negb (String.eqb s "").

End Py.

Notation "x <~ c ; k" := (Py.bind c (fun x => k))
  (at level 20, c at level 100, k at level 200, only parsing).

(** ** [xml.etree.ElementTree]: the part of [Element] the program uses *)

Module ET.

#[warnings="-register-all"] Inductive Element : Type := mkElement {
  tag : string;
  attrib : gmap string string;
  text : option string;
  children : list Element
}.

(** [ET.Element(tag, **attrib)] *)
Definition new (tg : string) (attrs : gmap string string) : Element :=
  {| tag := tg; attrib := attrs; text := None; children := [] |}.

(** [elem.get(key)]: [None] when the attribute is missing. *)
Definition get (e : Element) (key : string) : option string := attrib e !! key.

(** [elem.set(key, value)] *)
Definition set (e : Element) (key value : string) : Element :=
  {| tag := tag e; attrib := <[key := value]> (attrib e);
     text := text e; children := children e |}.

Definition set_text (e : Element) (s : string) : Element :=
  {| tag := tag e; attrib := attrib e; text := Some s; children := children e |}.

(** [parent.append(child)] *)
Definition append (parent child : Element) : Element :=
  {| tag := tag parent; attrib := attrib parent; text := text parent;
     children := children parent ++ [child] |}.

Definition has_tag (tg : string) (e : Element) : bool := String.eqb (tag e) tg.

(** [elem.findall(tg)]: the direct children tagged [tg], in document order. *)
Definition findall (e : Element) (tg : string) : list Element :=
  List.filter (has_tag tg) (children e).

(** [elem.find(tg)]: the first direct child tagged [tg]. *)
Definition find (e : Element) (tg : string) : option Element :=
  head (findall e tg).

End ET.

(** ** The data model *)

Definition CATEGORY_PRESETS : list string :=
  ["weapons"; "food"; "tools"; "clothes"; "books"; "containers"; "explosives";
   "lootdispatch"].

Module TypeEntry.

Record t : Type := mk {
  name : string;
  nominal : option Z;
  lifetime : option Z;
  restock : option Z;
  min : option Z;
  quantmin : option Z;
  quantmax : option Z;
  cost : option Z;
  flags : gmap string Z;
  category : option string;
  usages : list string;
  values : list string;
  tags : list string
}.

(** The [default_factory] of the [flags] field. *)
Definition default_flags : gmap string Z :=
  list_to_map
    [("count_in_cargo", 0%Z); ("count_in_hoarder", 0%Z); ("count_in_map", 1%Z);
     ("count_in_player", 0%Z); ("crafted", 0%Z); ("deloot", 0%Z)].

(** [dict.keys()] *)
Definition keys (d : gmap string Z) : list string := elements (dom d).

Definition set_flags (e : t) (fl : gmap string Z) : t :=
  mk (name e) (nominal e) (lifetime e) (restock e) (min e) (quantmin e)
     (quantmax e) (cost e) fl (category e) (usages e) (values e) (tags e).

Definition set_category (e : t) (c : option string) : t :=
  mk (name e) (nominal e) (lifetime e) (restock e) (min e) (quantmin e)
     (quantmax e) (cost e) (flags e) c (usages e) (values e) (tags e).

Definition set_lists (e : t) (us vs ts : list string) : t :=
  mk (name e) (nominal e) (lifetime e) (restock e) (min e) (quantmin e)
     (quantmax e) (cost e) (flags e) (category e) us vs ts.

(** The local function [get_int] of [from_xml]. *)
Definition get_int (elem : ET.Element) (tg : string) : Py.result (option Z) :=
  match ET.find elem tg with
  | Some c =>
      if negb (String.eqb (Py.strip (default "" (ET.text c))) "") then
        Py.try_except_ValueError
          (s <~ match ET.text c with
                | Some s => Py.ret (Py.strip s)
                | None => Py.raise Py.AttributeError
                end ;
           z <~ Py.int s ;
           Py.ret (Some z))
          (Py.ret None)
      else Py.ret None
  | None => Py.ret None
  end.

(** One turn of the loop over the flag keys in [from_xml]. *)
Definition read_flag (flags_elem : ET.Element) (fl : gmap string Z) (k : string)
  : Py.result (gmap string Z) :=
  match ET.get flags_elem k with
  | Some v =>
      Py.try_except_ValueError
        (z <~ Py.int v ; Py.ret (<[k := z]> fl))
        (Py.ret fl)
  | None => Py.ret fl
  end.

(** [[c.get("name") for c in elem.findall(tg) if c.get("name")]] *)
Definition names_of (elem : ET.Element) (tg : string) : list string :=
  omap (λ c, match ET.get c "name" with
             | Some n => if Py.truthy n then Some n else None
             | None => None
             end)
       (ET.findall elem tg).

(** [TypeEntry.from_xml(elem)].  The entry is built with the default flags;
    the loop then runs over the keys of that dict. *)
Definition from_xml (elem : ET.Element) : Py.result t :=
  let name := default "" (ET.get elem "name") in
  nominal <~ get_int elem "nominal" ;
  lifetime <~ get_int elem "lifetime" ;
  restock <~ get_int elem "restock" ;
  min <~ get_int elem "min" ;
  quantmin <~ get_int elem "quantmin" ;
  quantmax <~ get_int elem "quantmax" ;
  cost <~ get_int elem "cost" ;
  let entry :=
    mk name nominal lifetime restock min quantmin quantmax cost
       default_flags None [] [] [] in
  entry <~ match ET.find elem "flags" with
           | Some flags_elem =>
               fl <~ Py.for_each (read_flag flags_elem) (keys (flags entry))
                                 (flags entry) ;
               Py.ret (set_flags entry fl)
           | None => Py.ret entry
           end ;
  let entry :=
    match ET.find elem "category" with
    | Some cat_elem => set_category entry (ET.get cat_elem "name")
    | None => entry
    end in
  Py.ret (set_lists entry (names_of elem "usage") (names_of elem "value")
                    (names_of elem "tag")).

(** The local function [put_int] of [to_xml]. *)
Definition put_int (t0 : ET.Element) (tg : string) (val : option Z) : ET.Element :=
  match val with
  | Some v => ET.append t0 (ET.set_text (ET.new tg ∅) (Py.str v))
  | None => t0
  end.

(** [for x in xs: ET.SubElement(t, tg).set("name", x)] *)
Definition put_names (t0 : ET.Element) (tg : string) (xs : list string) : ET.Element :=
  foldl (λ acc x, ET.append acc (ET.set (ET.new tg ∅) "name" x)) t0 xs.

(** [self.to_xml()].  A flag [v] is an [int], so [str(int(v))] is [str(v)];
    the order in which [flags.items()] is walked does not show in the
    attribute dict that results. *)
Definition to_xml (self : t) : ET.Element :=
  let t0 := ET.new "type" {[ "name" := name self ]} in
  let t0 := put_int t0 "nominal" (nominal self) in
  let t0 := put_int t0 "lifetime" (lifetime self) in
  let t0 := put_int t0 "restock" (restock self) in
  let t0 := put_int t0 "min" (min self) in
  let t0 := put_int t0 "quantmin" (quantmin self) in
  let t0 := put_int t0 "quantmax" (quantmax self) in
  let t0 := put_int t0 "cost" (cost self) in
  let t0 :=
    if existsb (λ kv, negb (Z.eqb kv.2 0)) (map_to_list (flags self)) || true then
      ET.append t0
        (map_fold (λ k v f, ET.set f k (Py.str v)) (ET.new "flags" ∅) (flags self))
    else t0 in
  let t0 :=
    match category self with
    | Some c => if Py.truthy c
                then ET.append t0 (ET.set (ET.new "category" ∅) "name" c)
                else t0
    | None => t0
    end in
  let t0 := put_names t0 "usage" (usages self) in
  let t0 := put_names t0 "value" (values self) in
  let t0 := put_names t0 "tag" (tags self) in
  t0.

End TypeEntry.

(** ** The main window: the collection and its slots

    The widgets are collaborators; of them the state keeps what the slots
    read back: the row of the current item of the list widget ([list_row],
    [None] when there is no current item) and the entry the editor was last
    loaded with ([editor_current]).  What a dialog or a form hands to a slot
    is a parameter of the slot. *)

Module MainWindow.

(** How a slot ends. *)
Inductive outcome : Type :=
| Returned                  (* ran to its end, or left through a plain return *)
| Warned (title : string)   (* QMessageBox.warning, then return *)
| Failed (title : string)   (* QMessageBox.critical in an except clause *)
| Raised (e : Py.exn).      (* an exception leaves the slot *)

Record t : Type := mk {
  entries : list TypeEntry.t;
  category_pool : list string;
  current_path : option string;
  list_row : option nat;
  editor_current : option TypeEntry.t
}.

Definition set_entries (w : t) (es : list TypeEntry.t) : t :=
  mk es (category_pool w) (current_path w) (list_row w) (editor_current w).

Definition set_category_pool (w : t) (p : list string) : t :=
  mk (entries w) p (current_path w) (list_row w) (editor_current w).

Definition set_current_path (w : t) (p : option string) : t :=
  mk (entries w) (category_pool w) p (list_row w) (editor_current w).

Definition set_list_row (w : t) (r : option nat) : t :=
  mk (entries w) (category_pool w) (current_path w) r (editor_current w).

(** [self.editor.load_entry(entry)] *)
Definition load_entry (w : t) (e : option TypeEntry.t) : t :=
  mk (entries w) (category_pool w) (current_path w) (list_row w) e.

(** The slot of [currentItemChanged]. *)
Definition on_select (cur : option nat) (w : t) : t :=
  match cur with
  | None => load_entry w None
  | Some idx =>
      match entries w !! idx with
      | Some e => load_entry w (Some e)
      | None => w
      end
  end.

(** [self.list.setCurrentRow(row)]: a row outside the list leaves no current
    item; [currentItemChanged] fires when the current item changes. *)
Definition setCurrentRow (row : option nat) (w : t) : t :=
  let row :=
    match row with
    | Some i => if bool_decide (i < length (entries w)) then Some i else None
    | None => None
    end in
  if bool_decide (list_row w = row) then w
  else on_select row (set_list_row w row).

(** [refresh_list]: the list widget is cleared, which drops its current
    item, and filled again from [entries]. *)
Definition refresh_list (w : t) : t := setCurrentRow None w.

(** [enumerate(xs)] *)
Definition enumerate {A : Type} (xs : list A) : list (nat * A) :=
  zip (seq 0 (length xs)) xs.

(** [next(i for i, e in enumerate(entries) if e.name == n)], if any. *)
Definition first_named (n : string) (es : list TypeEntry.t) : option nat :=
  fst <$> head (List.filter (λ ie, String.eqb (TypeEntry.name ie.2) n)
                            (enumerate es)).

(** The tail of [save_selected_changes], after the collection was changed:
    the category pool, the list widget and the selection. *)
Definition after_save (entry : TypeEntry.t) (w : t) : t :=
  let w :=
    match TypeEntry.category entry with
    | Some c =>
        if Py.truthy c && negb (bool_decide (c ∈ category_pool w))
        then set_category_pool w (category_pool w ++ [c])
        else w
    | None => w
    end in
  let w := refresh_list w in
  match first_named (TypeEntry.name entry) (entries w) with
  | Some i => setCurrentRow (Some i) w
  | None => w
  end.

(** [save_selected_changes]; [collected] is what [self.editor.collect_entry()]
    returned, [None] after its validation warning. *)
Definition save_selected_changes (collected : option TypeEntry.t) (w : t)
  : outcome * t :=
  match collected with
  | None => (Warned "Validation", w)
  | Some entry =>
      match list_row w, editor_current w with
      | Some idx, Some _ =>
          if existsb (λ ie, String.eqb (TypeEntry.name ie.2) (TypeEntry.name entry))
                     (List.filter (λ ie, negb (Nat.eqb ie.1 idx))
                                  (enumerate (entries w)))
          then (Warned "Duplicate", w)
          else
            (* [self.entries[idx] = entryry]: the right-hand side is a name
               that is bound nowhere, so the statement raises before it
               assigns and the rest of the slot is not reached *)
            (Raised (Py.NameError "entryry"), w)
      | _, _ =>
          if existsb (λ e, String.eqb (TypeEntry.name e) (TypeEntry.name entry))
                     (entries w)
          then (Warned "Duplicate", w)
          else (Returned, after_save entry (set_entries w (entries w ++ [entry])))
      end
  end.

(** [xs.insert(i, x)] for [0 <= i] *)
Definition list_insert_at {A : Type} (i : nat) (x : A) (xs : list A) : list A :=
  take i xs ++ x :: drop i xs.

(** The entry [duplicate_type] builds from [src]. *)
Definition copy_of (src : TypeEntry.t) : TypeEntry.t :=
  TypeEntry.mk (TypeEntry.name src +:+ "_Copy")
    (TypeEntry.nominal src) (TypeEntry.lifetime src) (TypeEntry.restock src)
    (TypeEntry.min src) (TypeEntry.quantmin src) (TypeEntry.quantmax src)
    (TypeEntry.cost src) (TypeEntry.flags src) (TypeEntry.category src)
    (TypeEntry.usages src) (TypeEntry.values src) (TypeEntry.tags src).

Definition duplicate_type (w : t) : outcome * t :=
  match list_row w with
  | None => (Returned, w)
  | Some idx =>
      match entries w !! idx with
      | None => (Raised Py.IndexError, w)
      | Some src =>
          let w := set_entries w (list_insert_at (S idx) (copy_of src) (entries w)) in
          let w := refresh_list w in
          (Returned, setCurrentRow (Some (S idx)) w)
      end
  end.

(** One turn of the loop of [action_import]. *)
Definition import_type (acc : list TypeEntry.t * gset string) (elem : ET.Element)
  : Py.result (list TypeEntry.t * gset string) :=
  e <~ TypeEntry.from_xml elem ;
  let cats :=
    match TypeEntry.category e with
    | Some c => if Py.truthy c then {[ c ]} ∪ acc.2 else acc.2
    | None => acc.2
    end in
  Py.ret (acc.1 ++ [e], cats).

(** The body of the [try] of [action_import] up to the first assignment to
    [self]. *)
Definition read_document (parsed : Py.result ET.Element)
  : Py.result (list TypeEntry.t * gset string) :=
  root <~ parsed ;
  if negb (String.eqb (ET.tag root) "types") then Py.raise Py.ValueError
  else Py.for_each import_type (ET.findall root "type") ([], ∅).

(** [sorted(s)] for a set of strings *)
Definition sorted (s : gset string) : list string :=
  merge_sort String.le (elements s).

(** [action_import]; [path] is what the file dialog returned (the empty string
    when it was cancelled) and [parsed] what [ET.parse(path).getroot()] gave. *)
Definition action_import (path : string) (parsed : Py.result ET.Element) (w : t)
  : outcome * t :=
  if negb (Py.truthy path) then (Returned, w)
  else
    match read_document parsed with
    | inr (es, cats) =>
        let w := set_entries w es in
        let w := set_category_pool w (sorted (list_to_set CATEGORY_PRESETS ∪ cats)) in
        let w := refresh_list w in
        let w := set_current_path w (Some path) in
        (Returned,
         match entries w with
         | [] => w
         | _ :: _ => setCurrentRow (Some 0) w
         end)
    | inl _ => (Failed "Import Failed", w)
    end.

(** [new_type]: the list loses its current item and the editor is emptied.
    (The slot then ticks the count_in_map box of the form.) *)
Definition new_type (w : t) : t := load_entry (setCurrentRow None w) None.

(** [delete_type] *)
Definition delete_type (w : t) : outcome * t :=
  match list_row w with
  | None => (Returned, w)
  | Some idx =>
      if bool_decide (idx < length (entries w)) then
        let w := set_entries w (delete idx (entries w)) in
        let w := refresh_list w in
        (Returned,
         match entries w with
         | [] => w
         | _ :: _ => setCurrentRow (Some (Nat.min idx (length (entries w) - 1))) w
         end)
      else (Raised Py.IndexError, w)
  end.

(** [action_new]; [confirmed] is the answer to the "Discard changes?" box. *)
Definition action_new (confirmed : bool) (w : t) : t :=
  if confirmed then
    let w := set_entries w [] in
    let w := set_category_pool w [] in
    let w := refresh_list w in
    let w := load_entry w None in
    set_current_path w None
  else w.

(** The tree [action_export] builds: a [types] root with the node of every
    entry appended in order. *)
Definition export_root (es : list TypeEntry.t) : ET.Element :=
  foldl (λ root e, ET.append root (TypeEntry.to_xml e)) (ET.new "types" ∅) es.

(** The loop of [action_load_presets].  It writes to [self.preset_db] as it
    goes, so an exception leaves what was stored before it. *)
Fixpoint load_presets_loop (elems : list ET.Element)
    (db : gmap string TypeEntry.t) (count : nat)
  : option Py.exn * gmap string TypeEntry.t * nat :=
  match elems with
  | [] => (None, db, count)
  | elem :: elems' =>
      match TypeEntry.from_xml elem with
      | inl e => (Some e, db, count)
      | inr entry =>
          if Py.truthy (TypeEntry.name entry)
          then load_presets_loop elems' (<[TypeEntry.name entry := entry]> db)
                                 (S count)
          else load_presets_loop elems' db count
      end
  end.

(** [action_load_presets] on [self.preset_db]; the number is the count the
    information box shows, when it is shown. *)
Definition action_load_presets (path : string) (parsed : Py.result ET.Element)
    (db : gmap string TypeEntry.t)
  : outcome * gmap string TypeEntry.t * option nat :=
  if negb (Py.truthy path) then (Returned, db, None)
  else
    match parsed with
    | inl _ => (Failed "Load Presets Failed", db, None)
    | inr root =>
        match load_presets_loop (ET.findall root "type") db 0 with
        | (None, db', count) => (Returned, db', Some count)
        | (Some _, db', _) => (Failed "Load Presets Failed", db', None)
        end
    end.

End MainWindow.

(** ** Object identity of the mutable fields

    [flags] is a [dict] and [usages], [values], [tags] are [list]s: mutable
    objects an entry refers to.  This module keeps them in a store, so that
    two entries can share one of them, and gives [duplicate_type] on that
    level: [dict(src.flags)] and [list(src.usages)] allocate. *)

Module Store.

Inductive cell : Type :=
| Dict (d : gmap string Z)
| List (xs : list string).

Record entry : Type := mk_entry {
  name : string;
  nominal : option Z;
  lifetime : option Z;
  restock : option Z;
  min : option Z;
  quantmin : option Z;
  quantmax : option Z;
  cost : option Z;
  flags : positive;
  category : option string;
  usages : positive;
  values : positive;
  tags : positive
}.

Record t : Type := mk {
  heap : gmap positive cell;
  entries : list entry;
  list_row : option nat
}.

(** A new object: its address is one the store does not use yet. *)
Definition alloc (h : gmap positive cell) (c : cell) : positive * gmap positive cell :=
  let l := fresh (dom h) in (l, <[l := c]> h).

Definition read_dict (h : gmap positive cell) (l : positive) : option (gmap string Z) :=
  match h !! l with
  | Some (Dict d) => Some d
  | _ => None
  end.

Definition read_list (h : gmap positive cell) (l : positive) : option (list string) :=
  match h !! l with
  | Some (List xs) => Some xs
  | _ => None
  end.

(** The value an entry has in a store; [None] when a reference dangles or
    refers to an object of the wrong kind. *)
Definition load (h : gmap positive cell) (o : entry) : option TypeEntry.t :=
  fl ← read_dict h (flags o);
  us ← read_list h (usages o);
  vs ← read_list h (values o);
  ts ← read_list h (tags o);
  Some (TypeEntry.mk (name o) (nominal o) (lifetime o) (restock o) (min o)
          (quantmin o) (quantmax o) (cost o) fl (category o) us vs ts).

(** The collection as values. *)
Definition view (h : gmap positive cell) (os : list entry) : option (list TypeEntry.t) :=
  mapM (load h) os.

(** [dict(d)] *)
Definition dict_copy (h : gmap positive cell) (l : positive)
  : option (positive * gmap positive cell) :=
  d ← read_dict h l; Some (alloc h (Dict d)).

(** [list(xs)] *)
Definition list_copy (h : gmap positive cell) (l : positive)
  : option (positive * gmap positive cell) :=
  xs ← read_list h l; Some (alloc h (List xs)).

(** The constructor call of [duplicate_type]; the arguments are evaluated in
    the order they are written. *)
Definition make_copy (h : gmap positive cell) (src : entry)
  : option (entry * gmap positive cell) :=
  '(fl, h) ← dict_copy h (flags src);
  '(us, h) ← list_copy h (usages src);
  '(vs, h) ← list_copy h (values src);
  '(ts, h) ← list_copy h (tags src);
  Some (mk_entry (name src +:+ "_Copy") (nominal src) (lifetime src) (restock src)
          (min src) (quantmin src) (quantmax src) (cost src) fl (category src)
          us vs ts, h).

(** [duplicate_type], the collection and the selection; [None] when the
    store is ill-formed.  What the slot does to the widgets is in
    [MainWindow.duplicate_type]. *)
Definition duplicate_type (st : t) : option (MainWindow.outcome * t) :=
  match list_row st with
  | None => Some (MainWindow.Returned, st)
  | Some idx =>
      match entries st !! idx with
      | None => Some (MainWindow.Raised Py.IndexError, st)
      | Some src =>
          '(dup, h) ← make_copy (heap st) src;
          Some (MainWindow.Returned,
                mk h (MainWindow.list_insert_at (S idx) dup (entries st))
                   (Some (S idx)))
      end
  end.

(** The addresses of the mutable objects of an entry. *)
Definition containers (o : entry) : list positive :=
  [flags o; usages o; values o; tags o].

End Store.

(** ** The editor widgets *)

Module ListEditor.

(** [_add_text] on the items of the list widget. *)
Definition _add_text (text : string) (items : list string) : list string :=
  let text := Py.strip text in
  if Py.truthy text then
    if bool_decide (text ∈ items) then items else items ++ [text]
  else items.

End ListEditor.

Module TypeEditor.

(** [list(dict.fromkeys(xs))]: every key once, at its first place. *)
Definition fromkeys (xs : list string) : list string :=
  foldl (λ acc x, if bool_decide (x ∈ acc) then acc else acc ++ [x]) [] xs.

(** [set_category_options]: the items the category combo box is given. *)
Definition set_category_options (categories : list string) : list string :=
  fromkeys (CATEGORY_PRESETS ++ MainWindow.sorted (list_to_set categories)).

(** What a spin box reports: [text()] and [value()]. *)
Record SpinBox : Type := mkSpinBox {
  sb_text : string;
  sb_value : Z
}.

(** What [collect_entry] reads from the form. *)
Record form : Type := mkForm {
  name_text : string;
  nominal_sb : SpinBox;
  lifetime_sb : SpinBox;
  restock_sb : SpinBox;
  min_sb : SpinBox;
  quantmin_sb : SpinBox;
  quantmax_sb : SpinBox;
  cost_sb : SpinBox;
  flag_checks : gmap string bool;
  category_text : string;
  usage_items : list string;
  value_items : list string;
  tag_items : list string
}.

(** The local function [val] of [collect_entry]. *)
Definition val (sb : SpinBox) : option Z :=
  if String.eqb (sb_text sb) "" then None else Some (sb_value sb).

(** [collect_entry]; [None] after the validation warning. *)
Definition collect_entry (f : form) : option TypeEntry.t :=
  let name := Py.strip (name_text f) in
  if negb (Py.truthy name) then None
  else
    let fl :=
      map_fold (λ k (checked : bool) fl, <[k := if checked then 1%Z else 0%Z]> fl)
               TypeEntry.default_flags (flag_checks f) in
    let cat := Py.strip (category_text f) in
    Some (TypeEntry.mk name (val (nominal_sb f)) (val (lifetime_sb f))
            (val (restock_sb f)) (val (min_sb f)) (val (quantmin_sb f))
            (val (quantmax_sb f)) (val (cost_sb f)) fl
            (if Py.truthy cat then Some cat else None)
            (usage_items f) (value_items f) (tag_items f)).

End TypeEditor.

(** * Notions used to state the properties *)

(** All characters of a string satisfy a test. *)
Fixpoint all_chars (P : ascii → bool) (s : string) : bool :=
  match s with
  | EmptyString => true
  | String c s' => P c && all_chars P s'
  end.

(** A character that neither [strip] nor [int] takes for white space. *)
Definition literal_char (c : ascii) : bool :=
  negb (Py.isspace c) && negb (Py.int_space c).

(** The seven optional integer fields, with the tag of their child node. *)
Inductive int_field : Type :=
| Nominal | Lifetime | Restock | Min | Quantmin | Quantmax | Cost.

Definition field_tag (f : int_field) : string :=
  match f with
  | Nominal => "nominal" | Lifetime => "lifetime" | Restock => "restock"
  | Min => "min" | Quantmin => "quantmin" | Quantmax => "quantmax"
  | Cost => "cost"
  end.

Definition field_get (f : int_field) (r : TypeEntry.t) : option Z :=
  match f with
  | Nominal => TypeEntry.nominal r | Lifetime => TypeEntry.lifetime r
  | Restock => TypeEntry.restock r | Min => TypeEntry.min r
  | Quantmin => TypeEntry.quantmin r | Quantmax => TypeEntry.quantmax r
  | Cost => TypeEntry.cost r
  end.

(** The six flag names. *)
Definition FLAG_KEYS : gset string :=
  list_to_set ["count_in_cargo"; "count_in_hoarder"; "count_in_map";
               "count_in_player"; "crafted"; "deloot"].

(** The children [to_xml] emits, group by group. *)
Definition int_child (tg : string) (val : option Z) : list ET.Element :=
  match val with
  | Some v => [ET.set_text (ET.new tg ∅) (Py.str v)]
  | None => []
  end.

Definition flags_child (r : TypeEntry.t) : ET.Element :=
  map_fold (λ k v f, ET.set f k (Py.str v)) (ET.new "flags" ∅) (TypeEntry.flags r).

Definition category_child (r : TypeEntry.t) : list ET.Element :=
  match TypeEntry.category r with
  | Some c => if Py.truthy c then [ET.set (ET.new "category" ∅) "name" c] else []
  | None => []
  end.

Definition name_children (tg : string) (xs : list string) : list ET.Element :=
  (λ x, ET.set (ET.new tg ∅) "name" x) <$> xs.

Definition groups (r : TypeEntry.t) : list (string * list ET.Element) :=
  [("nominal", int_child "nominal" (TypeEntry.nominal r));
   ("lifetime", int_child "lifetime" (TypeEntry.lifetime r));
   ("restock", int_child "restock" (TypeEntry.restock r));
   ("min", int_child "min" (TypeEntry.min r));
   ("quantmin", int_child "quantmin" (TypeEntry.quantmin r));
   ("quantmax", int_child "quantmax" (TypeEntry.quantmax r));
   ("cost", int_child "cost" (TypeEntry.cost r));
   ("flags", [flags_child r]);
   ("category", category_child r);
   ("usage", name_children "usage" (TypeEntry.usages r));
   ("value", name_children "value" (TypeEntry.values r));
   ("tag", name_children "tag" (TypeEntry.tags r))].

(** Every child carries the tag of its group. *)
Definition well_tagged (gs : list (string * list ET.Element)) : Prop :=
  Forall (λ g, Forall (λ e, ET.tag e = g.1) g.2) gs.

(** What one pass through [to_xml] and [from_xml] makes of a category and
    of a list of names. *)
Definition reread_category (c : option string) : option string :=
  match c with
  | Some c => if Py.truthy c then Some c else None
  | None => None
  end.

Definition reread_names (xs : list string) : list string :=
  List.filter Py.truthy xs.

(** What the loop over the flag keys makes of one flag: the attribute when it
    is there and reads as an integer, the value the flag had otherwise. *)
Definition reread_flag (attr : option string) (old : option Z) : option Z :=
  match attr with
  | Some v =>
      match Py.int v with
      | inr z => Some z
      | inl _ => old
      end
  | None => old
  end.

(** What [get_int] makes of the child it looks up. *)
Definition reread_int (child : option ET.Element) : option Z :=
  match child with
  | Some c =>
      match ET.text c with
      | Some s =>
          if String.eqb (Py.strip s) "" then None
          else match Py.int (Py.strip s) with
               | inr z => Some z
               | inl _ => None
               end
      | None => None
      end
  | None => None
  end.

(** A record used to try the properties on: every kind of field is set. *)
Definition sample_entry : TypeEntry.t :=
  TypeEntry.mk "AKM" (Some 10%Z) (Some 28800%Z) None (Some 5%Z) (Some (-1)%Z)
    (Some (-1)%Z) None
    (<["count_in_cargo" := 1%Z]> TypeEntry.default_flags)
    (Some "weapons") ["military"; "police"] ["Tier3"; "Tier4"] ["shelves"].

(** A record with nothing set and all six flags 0. *)
Definition sample_entry_all_false : TypeEntry.t :=
  TypeEntry.mk "Stone" None None None None None None None
    (<["count_in_map" := 0%Z]> TypeEntry.default_flags) None [] [] [].

(** The same record with an empty name among its usages. *)
Definition sample_entry_empty_usage : TypeEntry.t :=
  TypeEntry.set_lists sample_entry ["military"; ""] ["Tier3"; "Tier4"] ["shelves"].

(** The same record with the empty string for a category. *)
Definition sample_entry_empty_category : TypeEntry.t :=
  TypeEntry.set_category sample_entry (Some "").

(** An element [from_xml] has to be lenient with: a nominal child that is
    no number, a lifetime child padded with blanks, an empty restock child,
    and a flags child with one attribute that is no number. *)
Definition sample_lenient_element : ET.Element :=
  ET.mkElement "type" {[ "name" := "Rag" ]} None
    [ET.mkElement "nominal" ∅ (Some "many") [];
     ET.mkElement "lifetime" ∅ (Some " 3600 ") [];
     ET.mkElement "restock" ∅ None [];
     ET.mkElement "flags" (<["crafted" := "yes"]> {[ "deloot" := "1" ]}) None []].

(** The non-empty categories of a list of records. *)
Definition categories_of (es : list TypeEntry.t) : gset string :=
  list_to_set (omap (λ e, reread_category (TypeEntry.category e)) es).

(** The window as [__init__] leaves it. *)
Definition initial_window : MainWindow.t := MainWindow.mk [] [] None None None.

(** A [<type name=n>] element with one [<category name=c>] child. *)
Definition type_element (n c : string) : ET.Element :=
  ET.mkElement "type" {[ "name" := n ]} None
    [ET.mkElement "category" {[ "name" := c ]} None []].

(** Two documents whose category sets overlap and differ. *)
Definition first_document : ET.Element :=
  ET.mkElement "types" ∅ None
    [type_element "AKM" "weapons"; type_element "Amulet" "relics"].

Definition second_document : ET.Element :=
  ET.mkElement "types" ∅ None
    [type_element "M4A1" "weapons"; type_element "Sedan" "vehicles"].

(** A document with a root that is not [types]. *)
Definition items_document : ET.Element :=
  ET.mkElement "items" ∅ None [type_element "AKM" "weapons"].

(** A window holding one record, selected in the list and loaded in the
    editor. *)
Definition window_with_selection : MainWindow.t :=
  MainWindow.mk [sample_entry] ["weapons"] None (Some 0) (Some sample_entry).

(** The same window after the "New Type" button: nothing is selected. *)
Definition window_without_selection : MainWindow.t :=
  MainWindow.mk [sample_entry] ["weapons"] None None None.

(** The sample record under another name. *)
Definition renamed_entry : TypeEntry.t :=
  TypeEntry.mk "AK74" (Some 10%Z) (Some 28800%Z) None (Some 5%Z) (Some (-1)%Z)
    (Some (-1)%Z) None
    (<["count_in_cargo" := 1%Z]> TypeEntry.default_flags)
    (Some "weapons") ["military"; "police"] ["Tier3"; "Tier4"] ["shelves"].

(** A store that agrees with [h] on the addresses of [h]. *)
Definition extends (h h' : gmap positive Store.cell) : Prop :=
  ∀ a, a ∈ dom h → h' !! a = h !! a.

(** A store with the sample record in it, selected. *)
Definition sample_store : Store.t :=
  Store.mk
    (<[1%positive := Store.Dict (<["count_in_cargo" := 1%Z]> TypeEntry.default_flags)]>
      (<[2%positive := Store.List ["military"; "police"]]>
        (<[3%positive := Store.List ["Tier3"; "Tier4"]]>
          {[ 4%positive := Store.List ["shelves"] ]})))
    [Store.mk_entry "AKM" (Some 10%Z) (Some 28800%Z) None (Some 5%Z) (Some (-1)%Z)
       (Some (-1)%Z) None 1%positive (Some "weapons") 2%positive 3%positive
       4%positive]
    (Some 0).

(** * Notions for the properties of the remaining code *)

(** The tags [from_xml] looks for among the children of a node. *)
Definition RECOGNIZED_TAGS : list string :=
  ["nominal"; "lifetime"; "restock"; "min"; "quantmin"; "quantmax"; "cost";
   "flags"; "category"; "usage"; "value"; "tag"].

(** A record that one pass through [to_xml] and [from_xml] leaves alone. *)
Definition well_formed (r : TypeEntry.t) : Prop :=
  dom (TypeEntry.flags r) = FLAG_KEYS
  ∧ TypeEntry.category r ≠ Some ""
  ∧ Forall (λ x, x ≠ "") (TypeEntry.usages r)
  ∧ Forall (λ x, x ≠ "") (TypeEntry.values r)
  ∧ Forall (λ x, x ≠ "") (TypeEntry.tags r).

(** The tags of the children of a serialized record, in document order. *)
Definition present_tag (tg : string) (val : option Z) : list string :=
  match val with
  | Some _ => [tg]
  | None => []
  end.

Definition schema_tags (r : TypeEntry.t) : list string :=
  present_tag "nominal" (TypeEntry.nominal r)
  ++ present_tag "lifetime" (TypeEntry.lifetime r)
  ++ present_tag "restock" (TypeEntry.restock r)
  ++ present_tag "min" (TypeEntry.min r)
  ++ present_tag "quantmin" (TypeEntry.quantmin r)
  ++ present_tag "quantmax" (TypeEntry.quantmax r)
  ++ present_tag "cost" (TypeEntry.cost r)
  ++ ["flags"]
  ++ match reread_category (TypeEntry.category r) with
     | Some _ => ["category"]
     | None => []
     end
  ++ replicate (length (TypeEntry.usages r)) "usage"
  ++ replicate (length (TypeEntry.values r)) "value"
  ++ replicate (length (TypeEntry.tags r)) "tag".

(** The names of a collection, in order. *)
Definition names (es : list TypeEntry.t) : list string := TypeEntry.name <$> es.

(** The keys of [xs] that are not in [seen], each once, at its first place. *)
Fixpoint new_keys (seen xs : list string) : list string :=
  match xs with
  | [] => []
  | x :: xs' =>
      if bool_decide (x ∈ seen) then new_keys seen xs'
      else x :: new_keys (seen ++ [x]) xs'
  end.

(** The pool after [after_save]. *)
Definition pool_with (entry : TypeEntry.t) (pool : list string) : list string :=
  match TypeEntry.category entry with
  | Some c =>
      if Py.truthy c && negb (bool_decide (c ∈ pool)) then pool ++ [c] else pool
  | None => pool
  end.

(** What one turn of the loop of [action_load_presets] stores. *)
Definition store_preset (db : gmap string TypeEntry.t) (e : TypeEntry.t)
  : gmap string TypeEntry.t :=
  if Py.truthy (TypeEntry.name e) then <[TypeEntry.name e := e]> db else db.

(** A node with a child and an attribute [from_xml] does not know. *)
Definition sample_foreign_child : ET.Element :=
  ET.mkElement "comment" {[ "name" := "ignored" ]} (Some "12") [].

(** A document to load presets from: its root is not [types], one record has
    no name and one name comes twice. *)
Definition preset_document : ET.Element :=
  ET.mkElement "anything" ∅ None
    [type_element "AKM" "weapons"; type_element "" "junk";
     type_element "AKM" "relics"].

(** The value a ticked or unticked flag box stands for. *)
Definition flag_value (checked : bool) : Z := if checked then 1%Z else 0%Z.

(** A form as the editor holds it after some typing: blanks around the name
    and the category, two spin boxes left blank, three boxes ticked. *)
Definition sample_form : TypeEditor.form :=
  TypeEditor.mkForm "  M4A1 "
    (TypeEditor.mkSpinBox "10" 10%Z) (TypeEditor.mkSpinBox "" (-1)%Z)
    (TypeEditor.mkSpinBox "0" 0%Z) (TypeEditor.mkSpinBox "5" 5%Z)
    (TypeEditor.mkSpinBox "" (-1)%Z) (TypeEditor.mkSpinBox "30" 30%Z)
    (TypeEditor.mkSpinBox "100" 100%Z)
    (list_to_map [("count_in_cargo", true); ("count_in_hoarder", false);
                  ("count_in_map", true); ("count_in_player", false);
                  ("crafted", false); ("deloot", true)])
    " weapons" ["military"] ["Tier4"] [].

(** A node whose flags child holds integers other than 0 and 1, and the
    record [from_xml] makes of it. *)
Definition sample_odd_flags_element : ET.Element :=
  ET.mkElement "type" {[ "name" := "Nail" ]} None
    [ET.mkElement "flags" (<["crafted" := "2"]> {[ "deloot" := "-3" ]}) None []].

Definition sample_entry_odd_flags : TypeEntry.t :=
  TypeEntry.mk "Nail" None None None None None None None
    (<["crafted" := 2%Z]> (<["deloot" := (-3)%Z]> TypeEntry.default_flags))
    None [] [] [].

(** * Facts about the built-ins *)

Section PyFacts.

Lemma rstrip_no_space sp s :
  all_chars (λ c, negb (sp c)) s = true → Py.rstrip sp s = s.
Proof.
  induction s as [|c s IH]; simpl; [done|].
  intros [Hc Hs]%andb_prop. rewrite (IH Hs).
  destruct s; [|done]. by destruct (sp c).
Qed.

Lemma lstrip_no_space sp s :
  all_chars (λ c, negb (sp c)) s = true → Py.lstrip sp s = s.
Proof.
  destruct s as [|c s]; simpl; [done|].
  intros [Hc _]%andb_prop. by destruct (sp c).
Qed.

Lemma strip_with_no_space sp s :
  all_chars (λ c, negb (sp c)) s = true → Py.strip_with sp s = s.
Proof.
  intros H. unfold Py.strip_with.
  rewrite (rstrip_no_space _ _ H). by apply lstrip_no_space.
Qed.

Lemma all_chars_weaken (P Q : ascii → bool) s :
  (∀ c, P c = true → Q c = true) → all_chars P s = true → all_chars Q s = true.
Proof.
  intros HPQ. induction s as [|c s IH]; simpl; [done|].
  intros [Hc Hs]%andb_prop. by rewrite (HPQ _ Hc), (IH Hs).
Qed.

Lemma digit_cases (d : Z) :
  (0 ≤ d < 10)%Z →
  d ∈ [0; 1; 2; 3; 4; 5; 6; 7; 8; 9]%Z.
Proof.
  intros Hd. repeat setoid_rewrite elem_of_cons. lia.
Qed.

Lemma digit_char_spec (d : Z) :
  (0 ≤ d < 10)%Z →
  Py.digit_of (Py.digit_char d) = Some d
  ∧ Ascii.eqb (Py.digit_char d) "_" = false
  ∧ literal_char (Py.digit_char d) = true.
Proof.
  intros Hd%digit_cases.
  repeat (apply elem_of_cons in Hd as [->|Hd]; [by vm_compute|]).
  by apply elem_of_nil in Hd.
Qed.

Lemma str_digits_literal fuel n acc :
  (0 ≤ n)%Z →
  all_chars literal_char acc = true →
  all_chars literal_char (Py.str_digits fuel n acc) = true.
Proof.
  revert n acc. induction fuel as [|fuel IH]; intros n acc Hn Hacc; simpl; [done|].
  assert (all_chars literal_char (String (Py.digit_char (n mod 10)) acc) = true)
    as Hacc'.
  { simpl. rewrite Hacc, andb_true_r.
    apply digit_char_spec, Z.mod_pos_bound. lia. }
  destruct (n <? 10)%Z; [done|].
  apply IH; [|done]. apply Z.div_pos; lia.
Qed.

Lemma int_digits_str_digits fuel n acc :
  (0 ≤ n < 2 ^ Z.of_nat (S fuel))%Z →
  Py.int_digits (Py.str_digits (S fuel) n acc) 0 false = Py.int_digits acc n true.
Proof.
  revert n acc. induction fuel as [|fuel IH]; intros n acc Hn.
  - assert ((n <? 10)%Z = true) as Hlt by (apply Z.ltb_lt; simpl in Hn; lia).
    simpl. rewrite Hlt. simpl.
    destruct (digit_char_spec (n mod 10)) as (-> & -> & _).
    { apply Z.mod_pos_bound. lia. }
    rewrite Z.mod_small by (simpl in Hn; lia). done.
  - change (Py.str_digits (S (S fuel)) n acc)
      with (let acc' := String (Py.digit_char (n mod 10)) acc in
            if (n <? 10)%Z then acc' else Py.str_digits (S fuel) (n / 10) acc').
    cbv zeta.
    destruct (digit_char_spec (n mod 10)) as (Hd & Hu & _).
    { apply Z.mod_pos_bound. lia. }
    destruct (Z.ltb_spec n 10) as [Hlt|Hge].
    + simpl. rewrite Hu, Hd. rewrite Z.mod_small by lia. done.
    + rewrite IH.
      * simpl. rewrite Hu, Hd. f_equal.
        pose proof (Z.div_mod n 10). lia.
      * split; [apply Z.div_pos; lia|].
        apply Z.div_lt_upper_bound; [lia|].
        rewrite !Nat2Z.inj_succ, !Z.pow_succ_r in * by lia. lia.
Qed.

Lemma digits_bound_spec n :
  (0 ≤ n)%Z → (0 ≤ n < 2 ^ Z.of_nat (Py.digits_bound n))%Z.
Proof.
  intros Hn. split; [done|]. unfold Py.digits_bound.
  rewrite Nat2Z.inj_succ, Z2Nat.id by apply Z.log2_nonneg.
  destruct (decide (n = 0%Z)) as [->|Hne]; [done|].
  apply Z.log2_spec. lia.
Qed.

Lemma str_literal z : all_chars literal_char (Py.str z) = true.
Proof.
  unfold Py.str. destruct (Z.ltb_spec z 0).
  - change (literal_char "-" &&
            all_chars literal_char (Py.str_digits (Py.digits_bound (- z)) (- z) "")
            = true).
    rewrite str_digits_literal by (lia || done). done.
  - apply str_digits_literal; [lia|done].
Qed.

Lemma str_digits_head fuel n acc :
  (0 ≤ n)%Z →
  ∃ c s, Py.str_digits (S fuel) n acc = String c s
         ∧ Ascii.eqb c "-" = false ∧ Ascii.eqb c "+" = false.
Proof.
  revert n acc. induction fuel as [|fuel IH]; intros n acc Hn.
  - simpl. assert (0 ≤ n mod 10 < 10)%Z as Hd%digit_cases by (apply Z.mod_pos_bound; lia).
    destruct (n <? 10)%Z; eexists _, _; (split; [done|]);
      repeat (apply elem_of_cons in Hd as [->|Hd]; [by vm_compute|]);
      by apply elem_of_nil in Hd.
  - change (Py.str_digits (S (S fuel)) n acc)
      with (let acc' := String (Py.digit_char (n mod 10)) acc in
            if (n <? 10)%Z then acc' else Py.str_digits (S fuel) (n / 10) acc').
    cbv zeta. destruct (n <? 10)%Z.
    + assert (0 ≤ n mod 10 < 10)%Z as Hd%digit_cases by (apply Z.mod_pos_bound; lia).
      eexists _, _; (split; [done|]);
      repeat (apply elem_of_cons in Hd as [->|Hd]; [by vm_compute|]);
      by apply elem_of_nil in Hd.
    + apply IH. apply Z.div_pos; lia.
Qed.

(** Reading back what [str] printed. *)
Lemma int_literal_str z : Py.int_literal (Py.str z) = Some z.
Proof.
  unfold Py.str. destruct (Z.ltb_spec z 0) as [Hneg|Hpos].
  - change (Z.opp <$> Py.int_digits
              (Py.str_digits (Py.digits_bound (- z)) (- z) "") 0 false = Some z).
    pose proof (digits_bound_spec (- z)) as Hb.
    unfold Py.digits_bound in *.
    rewrite int_digits_str_digits by (apply Hb; lia).
    simpl. f_equal. lia.
  - pose proof (digits_bound_spec z Hpos) as Hb. unfold Py.digits_bound in *.
    destruct (str_digits_head (Z.to_nat (Z.log2 z)) z "" Hpos)
      as (c & s & Hs & Hm & Hp).
    unfold Py.int_literal. rewrite Hs, Hm, Hp, <-Hs.
    by rewrite int_digits_str_digits.
Qed.

Lemma strip_str z : Py.strip (Py.str z) = Py.str z.
Proof.
  apply strip_with_no_space.
  eapply all_chars_weaken, str_literal.
  unfold literal_char. by intros c [? _]%andb_prop.
Qed.

Lemma int_str z : Py.int (Py.str z) = Py.ret z.
Proof.
  unfold Py.int. rewrite strip_with_no_space.
  - by rewrite int_literal_str.
  - eapply all_chars_weaken, str_literal.
    unfold literal_char. by intros c [_ ?]%andb_prop.
Qed.

Lemma str_nonempty z : Py.str z ≠ "".
Proof.
  intros H. pose proof (int_literal_str z) as Hl. by rewrite H in Hl.
Qed.

(** [int] raises nothing but [ValueError]. *)
Lemma int_total s : (∃ z, Py.int s = Py.ret z) ∨ Py.int s = Py.raise Py.ValueError.
Proof. unfold Py.int. destruct (Py.int_literal _); eauto. Qed.

End PyFacts.

(** * Facts about the two conversions *)

Section ToXml.

Lemma put_int_spec t0 tg val :
  ET.tag (TypeEntry.put_int t0 tg val) = ET.tag t0
  ∧ ET.attrib (TypeEntry.put_int t0 tg val) = ET.attrib t0
  ∧ ET.children (TypeEntry.put_int t0 tg val) = ET.children t0 ++ int_child tg val.
Proof.
  destruct val; simpl; [done|]. by rewrite app_nil_r.
Qed.

Lemma put_names_spec t0 tg xs :
  ET.tag (TypeEntry.put_names t0 tg xs) = ET.tag t0
  ∧ ET.attrib (TypeEntry.put_names t0 tg xs) = ET.attrib t0
  ∧ ET.children (TypeEntry.put_names t0 tg xs)
    = ET.children t0 ++ name_children tg xs.
Proof.
  unfold TypeEntry.put_names. revert t0.
  induction xs as [|x xs IH]; intros t0; simpl.
  - by rewrite app_nil_r.
  - destruct (IH (ET.append t0 (ET.set (ET.new tg ∅) "name" x))) as (-> & -> & ->).
    simpl. by rewrite <-app_assoc.
Qed.

Lemma to_xml_children r :
  ET.children (TypeEntry.to_xml r) = concat (snd <$> groups r).
Proof.
  unfold TypeEntry.to_xml. rewrite orb_true_r.
  repeat match goal with
  | |- context [TypeEntry.put_names ?t ?tg ?xs] =>
      let H := fresh in
      destruct (put_names_spec t tg xs) as (_ & _ & H); rewrite H; clear H
  end.
  assert (∀ t0, ET.children
            match TypeEntry.category r with
            | Some c => if Py.truthy c
                        then ET.append t0 (ET.set (ET.new "category" ∅) "name" c)
                        else t0
            | None => t0
            end = ET.children t0 ++ category_child r) as ->.
  { intros t0. unfold category_child.
    destruct (TypeEntry.category r) as [c|]; [destruct (Py.truthy c)|];
      simpl; by rewrite ?app_nil_r. }
  cbn [ET.append ET.children].
  repeat match goal with
  | |- context [TypeEntry.put_int ?t ?tg ?v] =>
      let H := fresh in
      destruct (put_int_spec t tg v) as (_ & _ & H); rewrite H; clear H
  end.
  cbn [ET.new ET.children groups fmap list_fmap snd concat app].
  fold (flags_child r). by rewrite <-!app_assoc, ?app_nil_r.
Qed.

Lemma to_xml_name r : ET.get (TypeEntry.to_xml r) "name" = Some (TypeEntry.name r).
Proof.
  unfold TypeEntry.to_xml, ET.get. rewrite orb_true_r.
  repeat match goal with
  | |- context [TypeEntry.put_names ?t ?tg ?xs] =>
      let H := fresh in
      destruct (put_names_spec t tg xs) as (_ & H & _); rewrite H; clear H
  end.
  assert (∀ t0, ET.attrib
            match TypeEntry.category r with
            | Some c => if Py.truthy c
                        then ET.append t0 (ET.set (ET.new "category" ∅) "name" c)
                        else t0
            | None => t0
            end = ET.attrib t0) as ->.
  { intros t0. destruct (TypeEntry.category r) as [c|]; [destruct (Py.truthy c)|];
      done. }
  cbn [ET.append ET.attrib].
  repeat match goal with
  | |- context [TypeEntry.put_int ?t ?tg ?v] =>
      let H := fresh in
      destruct (put_int_spec t tg v) as (_ & H & _); rewrite H; clear H
  end.
  simpl. apply lookup_singleton_eq.
Qed.

Lemma int_child_tag tg val : Forall (λ e, ET.tag e = tg) (int_child tg val).
Proof. destruct val; simpl; repeat constructor. Qed.

Lemma name_children_tag tg xs : Forall (λ e, ET.tag e = tg) (name_children tg xs).
Proof. unfold name_children. induction xs; simpl; by constructor. Qed.

Lemma flags_child_spec r :
  ET.tag (flags_child r) = "flags"
  ∧ ET.attrib (flags_child r) = Py.str <$> TypeEntry.flags r
  ∧ ET.text (flags_child r) = None
  ∧ ET.children (flags_child r) = [].
Proof.
  unfold flags_child.
  apply (map_fold_weak_ind
    (λ f m, ET.tag f = "flags" ∧ ET.attrib f = Py.str <$> m
            ∧ ET.text f = None ∧ ET.children f = [])).
  - by rewrite fmap_empty.
  - intros k v m f Hk (Ht & Ha & Hx & Hc). simpl.
    by rewrite Ha, fmap_insert.
Qed.

Lemma category_child_tag r : Forall (λ e, ET.tag e = "category") (category_child r).
Proof.
  unfold category_child.
  destruct (TypeEntry.category r) as [c|]; [destruct (Py.truthy c)|];
    repeat constructor.
Qed.

Lemma groups_well_tagged r : well_tagged (groups r).
Proof.
  unfold well_tagged, groups.
  repeat (apply Forall_cons; split); try apply Forall_nil; simpl;
    try apply int_child_tag; try apply name_children_tag;
    try apply category_child_tag.
  all: try done.
  repeat constructor. apply flags_child_spec.
Qed.

Lemma filter_tag_same tg l :
  Forall (λ e, ET.tag e = tg) l → List.filter (ET.has_tag tg) l = l.
Proof.
  induction 1 as [|e l He _ IH]; simpl; [done|].
  unfold ET.has_tag at 1. rewrite He, String.eqb_refl. by rewrite IH.
Qed.

Lemma filter_tag_other tg tg' l :
  tg' ≠ tg → Forall (λ e, ET.tag e = tg') l → List.filter (ET.has_tag tg) l = [].
Proof.
  intros Hne. induction 1 as [|e l He _ IH]; simpl; [done|].
  unfold ET.has_tag at 1. rewrite He.
  destruct (String.eqb_spec tg' tg); [done|]. apply IH.
Qed.

Lemma filter_groups tg gs :
  well_tagged gs →
  List.filter (ET.has_tag tg) (concat (snd <$> gs))
  = concat (snd <$> List.filter (λ g, String.eqb g.1 tg) gs).
Proof.
  induction 1 as [|[tg' l] gs Hl _ IH]; [done|].
  rewrite fmap_cons. cbn [concat snd]. rewrite List.filter_app, IH.
  cbn [List.filter fst]. simpl in Hl.
  destruct (String.eqb_spec tg' tg) as [->|Hne].
  - rewrite fmap_cons. cbn [concat snd]. by rewrite filter_tag_same.
  - by rewrite (filter_tag_other tg tg').
Qed.

Lemma findall_to_xml r tg :
  ET.findall (TypeEntry.to_xml r) tg
  = concat (snd <$> List.filter (λ g, String.eqb g.1 tg) (groups r)).
Proof.
  unfold ET.findall. rewrite to_xml_children.
  apply filter_groups, groups_well_tagged.
Qed.

Lemma findall_int_field r f :
  ET.findall (TypeEntry.to_xml r) (field_tag f) = int_child (field_tag f) (field_get f r).
Proof. rewrite findall_to_xml. destruct f; simpl; by rewrite app_nil_r. Qed.

Lemma findall_flags r : ET.findall (TypeEntry.to_xml r) "flags" = [flags_child r].
Proof. by rewrite findall_to_xml. Qed.

Lemma findall_category r : ET.findall (TypeEntry.to_xml r) "category" = category_child r.
Proof. rewrite findall_to_xml. simpl. by rewrite app_nil_r. Qed.

Lemma findall_usage r :
  ET.findall (TypeEntry.to_xml r) "usage" = name_children "usage" (TypeEntry.usages r).
Proof. rewrite findall_to_xml. simpl. by rewrite app_nil_r. Qed.

Lemma findall_value r :
  ET.findall (TypeEntry.to_xml r) "value" = name_children "value" (TypeEntry.values r).
Proof. rewrite findall_to_xml. simpl. by rewrite app_nil_r. Qed.

Lemma findall_tag r :
  ET.findall (TypeEntry.to_xml r) "tag" = name_children "tag" (TypeEntry.tags r).
Proof. rewrite findall_to_xml. simpl. by rewrite app_nil_r. Qed.

End ToXml.

Section FromXml.

Lemma try_int_spec (s : string) :
  Py.try_except_ValueError (z <~ Py.int s ; Py.ret (Some z)) (Py.ret None)
  = Py.ret match Py.int s with inr z => Some z | inl _ => None end.
Proof. by destruct (int_total s) as [[z ->]| ->]. Qed.

(** [get_int] always returns, with the integer the child holds or [None]. *)
Lemma get_int_spec elem tg :
  TypeEntry.get_int elem tg = Py.ret (reread_int (ET.find elem tg)).
Proof.
  unfold TypeEntry.get_int, reread_int.
  destruct (ET.find elem tg) as [c|]; [|done].
  destruct (ET.text c) as [s|]; simpl.
  - destruct (String.eqb (Py.strip s) ""); simpl; [done|]. apply try_int_spec.
  - done.
Qed.

Lemma reread_int_child tg val : reread_int (head (int_child tg val)) = val.
Proof.
  destruct val as [v|]; simpl; [|done].
  rewrite strip_str, int_str.
  destruct (String.eqb_spec (Py.str v) "") as [H|_]; [|done].
  by apply str_nonempty in H.
Qed.

Lemma read_flag_spec fe fl k :
  TypeEntry.read_flag fe fl k
  = Py.ret match ET.get fe k with
           | Some v => match Py.int v with inr z => <[k := z]> fl | inl _ => fl end
           | None => fl
           end.
Proof.
  unfold TypeEntry.read_flag. destruct (ET.get fe k) as [v|]; [|done].
  by destruct (int_total v) as [[z ->]| ->].
Qed.

(** The loop over the flag keys always returns; it touches the keys it
    visits, each as [reread_flag] says. *)
Lemma read_flags_spec fe ks fl0 :
  ∃ fl, Py.for_each (TypeEntry.read_flag fe) ks fl0 = Py.ret fl
        ∧ ∀ i, fl !! i = if decide (i ∈ ks)
                         then reread_flag (ET.get fe i) (fl0 !! i)
                         else fl0 !! i.
Proof.
  revert fl0. induction ks as [|k ks IH]; intros fl0.
  - exists fl0. split; [done|]. intros i. by rewrite decide_False by apply not_elem_of_nil.
  - simpl. rewrite read_flag_spec. simpl.
    destruct (IH match ET.get fe k with
                 | Some v => match Py.int v with
                             | inr z => <[k := z]> fl0 | inl _ => fl0 end
                 | None => fl0
                 end) as (fl & -> & Hfl).
    exists fl. split; [done|]. intros i. rewrite Hfl. clear Hfl IH.
    destruct (decide (i = k)) as [->|Hik].
    + rewrite (decide_True (P := k ∈ k :: ks)) by apply list_elem_of_here.
      unfold reread_flag.
      destruct (ET.get fe k) as [v|]; [|by destruct (decide _)].
      destruct (Py.int v) as [e|z]; [by destruct (decide _)|].
      rewrite lookup_insert_eq. by destruct (decide _).
    + assert (match ET.get fe k with
              | Some v => match Py.int v with
                          | inr z => <[k := z]> fl0 | inl _ => fl0 end
              | None => fl0
              end !! i = fl0 !! i) as ->.
      { destruct (ET.get fe k) as [v|]; [|done].
        destruct (Py.int v); [done|]. by rewrite lookup_insert_ne. }
      destruct (decide (i ∈ ks)) as [Hin|Hout].
      * by rewrite decide_True by by apply list_elem_of_further.
      * rewrite decide_False; [done|]. by intros [?|?]%elem_of_cons.
Qed.

Lemma keys_default_flags i : i ∈ TypeEntry.keys TypeEntry.default_flags ↔ i ∈ FLAG_KEYS.
Proof.
  unfold TypeEntry.keys. rewrite elem_of_elements.
  by replace (dom TypeEntry.default_flags) with FLAG_KEYS by by vm_compute.
Qed.

(** What [from_xml] returns, field by field, on any element. *)
Lemma from_xml_spec elem :
  ∃ fl,
    TypeEntry.from_xml elem
    = Py.ret (TypeEntry.mk
        (default "" (ET.get elem "name"))
        (reread_int (ET.find elem "nominal"))
        (reread_int (ET.find elem "lifetime"))
        (reread_int (ET.find elem "restock"))
        (reread_int (ET.find elem "min"))
        (reread_int (ET.find elem "quantmin"))
        (reread_int (ET.find elem "quantmax"))
        (reread_int (ET.find elem "cost"))
        fl
        (c ← ET.find elem "category"; ET.get c "name")
        (TypeEntry.names_of elem "usage")
        (TypeEntry.names_of elem "value")
        (TypeEntry.names_of elem "tag"))
    ∧ ∀ i, fl !! i =
        match ET.find elem "flags" with
        | Some fe =>
            if decide (i ∈ FLAG_KEYS)
            then reread_flag (ET.get fe i) (TypeEntry.default_flags !! i)
            else TypeEntry.default_flags !! i
        | None => TypeEntry.default_flags !! i
        end.
Proof.
  unfold TypeEntry.from_xml. rewrite !get_int_spec. cbn [Py.bind Py.ret].
  destruct (ET.find elem "flags") as [fe|].
  - cbn [TypeEntry.flags].
    destruct (read_flags_spec fe (TypeEntry.keys TypeEntry.default_flags)
                TypeEntry.default_flags) as (fl & -> & Hfl).
    exists fl. split.
    + cbn [Py.bind Py.ret]. by destruct (ET.find elem "category").
    + intros i. rewrite Hfl.
      destruct (decide (i ∈ FLAG_KEYS)) as [Hi|Hi].
      * by rewrite decide_True by by apply keys_default_flags.
      * by rewrite decide_False by by rewrite keys_default_flags.
  - exists TypeEntry.default_flags. split; [|done].
    cbn [Py.bind Py.ret]. by destruct (ET.find elem "category").
Qed.

Lemma names_of_children tg tg' xs elem :
  ET.findall elem tg = name_children tg' xs →
  TypeEntry.names_of elem tg = reread_names xs.
Proof.
  unfold TypeEntry.names_of. intros ->. unfold reread_names, name_children.
  induction xs as [|x xs IH]; [done|].
  rewrite fmap_cons. cbn [omap list_omap List.filter].
  change (ET.get (ET.set (ET.new tg' ∅) "name" x) "name")
    with ((<["name" := x]> (∅ : gmap string string)) !! "name").
  rewrite lookup_insert_eq.
  destruct (Py.truthy x); by rewrite <-IH.
Qed.

Lemma reread_names_id xs : Forall (λ x, x ≠ "") xs → reread_names xs = xs.
Proof.
  unfold reread_names. induction 1 as [|x xs Hx _ IH]; simpl; [done|].
  unfold Py.truthy at 1. destruct (String.eqb_spec x ""); [done|].
  simpl. by rewrite IH.
Qed.

Local Ltac use_field r f :=
  let H := fresh in
  pose proof (findall_int_field r f) as H;
  cbn [field_tag field_get] in H; rewrite H; clear H.

(** One pass through [to_xml] and [from_xml]. *)
Lemma from_xml_to_xml r :
  ∃ fl,
    TypeEntry.from_xml (TypeEntry.to_xml r)
    = Py.ret (TypeEntry.mk (TypeEntry.name r)
        (TypeEntry.nominal r) (TypeEntry.lifetime r) (TypeEntry.restock r)
        (TypeEntry.min r) (TypeEntry.quantmin r) (TypeEntry.quantmax r)
        (TypeEntry.cost r)
        fl
        (reread_category (TypeEntry.category r))
        (reread_names (TypeEntry.usages r))
        (reread_names (TypeEntry.values r))
        (reread_names (TypeEntry.tags r)))
    ∧ ∀ i, fl !! i =
        if decide (i ∈ FLAG_KEYS)
        then match TypeEntry.flags r !! i with
             | Some v => Some v
             | None => TypeEntry.default_flags !! i
             end
        else TypeEntry.default_flags !! i.
Proof.
  destruct (from_xml_spec (TypeEntry.to_xml r)) as (fl & -> & Hfl).
  exists fl. split.
  - unfold ET.find.
    use_field r Nominal; use_field r Lifetime; use_field r Restock;
      use_field r Min; use_field r Quantmin; use_field r Quantmax;
      use_field r Cost.
    rewrite !reread_int_child.
    rewrite (names_of_children _ _ _ _ (findall_usage r)),
      (names_of_children _ _ _ _ (findall_value r)),
      (names_of_children _ _ _ _ (findall_tag r)).
    rewrite findall_category, to_xml_name. cbn [default field_get].
    do 2 f_equal. unfold category_child, reread_category.
    destruct (TypeEntry.category r) as [c|]; [|done].
    destruct (Py.truthy c); [|done]. simpl.
    change (ET.get (ET.set (ET.new "category" ∅) "name" c) "name")
      with ((<["name" := c]> (∅ : gmap string string)) !! "name").
    by rewrite lookup_insert_eq.
  - intros i. rewrite Hfl. unfold ET.find. rewrite findall_flags.
    cbn [head]. destruct (decide (i ∈ FLAG_KEYS)); [|done].
    unfold ET.get. destruct (flags_child_spec r) as (_ & -> & _).
    rewrite lookup_fmap. destruct (TypeEntry.flags r !! i) as [v|]; [|done].
    simpl. by rewrite int_str.
Qed.

End FromXml.

(** * The record model: serialization and parsing *)

Section RecordModel.

Lemma filter_nil_Forall {A : Type} (P : A → bool) (l : list A) :
  List.filter P l = [] → Forall (λ x, P x = false) l.
Proof.
  induction l as [|x l IH]; simpl; [constructor|].
  destruct (P x) eqn:HP; [done|]. intros H. constructor; auto.
Qed.

Lemma no_child_tagged elem tg :
  ET.findall elem tg = [] → Forall (λ c, ET.tag c ≠ tg) (ET.children elem).
Proof.
  intros H%filter_nil_Forall. eapply Forall_impl; [exact H|].
  intros c Hc. unfold ET.has_tag in Hc. by destruct (String.eqb_spec (ET.tag c) tg).
Qed.

(** C1, as the code has it: for a record whose flags are the six fixed keys,
    whose category is absent or non-empty and whose usages, values and tags
    are non-empty strings, parsing the serialized node gives the record
    back, field for field and in order.  The optional integers and the flag
    values are arbitrary. *)
Theorem from_xml_to_xml_roundtrip (r : TypeEntry.t) :
  dom (TypeEntry.flags r) = FLAG_KEYS →
  TypeEntry.category r ≠ Some "" →
  Forall (λ x, x ≠ "") (TypeEntry.usages r) →
  Forall (λ x, x ≠ "") (TypeEntry.values r) →
  Forall (λ x, x ≠ "") (TypeEntry.tags r) →
  TypeEntry.from_xml (TypeEntry.to_xml r) = Py.ret r.
Proof.
  intros Hdom Hcat Hus Hvs Hts.
  destruct (from_xml_to_xml r) as (fl & -> & Hfl).
  rewrite !reread_names_id by done.
  assert (fl = TypeEntry.flags r) as ->.
  { apply map_eq. intros i. rewrite Hfl.
    destruct (decide (i ∈ FLAG_KEYS)) as [Hi|Hi].
    - rewrite <-Hdom in Hi. apply elem_of_dom in Hi as [v ->]. done.
    - assert (TypeEntry.flags r !! i = None) as ->.
      { apply not_elem_of_dom. by rewrite Hdom. }
      apply not_elem_of_dom.
      by replace (dom TypeEntry.default_flags) with FLAG_KEYS by by vm_compute. }
  assert (reread_category (TypeEntry.category r) = TypeEntry.category r) as ->.
  { unfold reread_category, Py.truthy.
    destruct (TypeEntry.category r) as [c|]; [|done].
    destruct (String.eqb_spec c "") as [->|]; done. }
  by destruct r.
Qed.

Lemma from_xml_to_xml_roundtrip_witness :
  TypeEntry.from_xml (TypeEntry.to_xml sample_entry) = Py.ret sample_entry.
Proof.
  apply (from_xml_to_xml_roundtrip sample_entry).
  - vm_compute. reflexivity.
  - simpl. discriminate.
  - simpl. repeat constructor; discriminate.
  - simpl. repeat constructor; discriminate.
  - simpl. repeat constructor; discriminate.
Defined.

(** C1, as the claim has it, fails: an empty string among the usages is a
    string sequence like any other, and it does not come back. *)
Lemma roundtrip_loses_empty_names :
  dom (TypeEntry.flags sample_entry_empty_usage) = FLAG_KEYS
  ∧ TypeEntry.category sample_entry_empty_usage = Some "weapons"
  ∧ TypeEntry.usages sample_entry_empty_usage = ["military"; ""]
  ∧ TypeEntry.from_xml (TypeEntry.to_xml sample_entry_empty_usage)
    = Py.ret (TypeEntry.set_lists sample_entry_empty_usage
                ["military"] ["Tier3"; "Tier4"] ["shelves"])
  ∧ TypeEntry.from_xml (TypeEntry.to_xml sample_entry_empty_usage)
    ≠ Py.ret sample_entry_empty_usage.
Proof.
  assert (TypeEntry.from_xml (TypeEntry.to_xml sample_entry_empty_usage)
          = Py.ret (TypeEntry.set_lists sample_entry_empty_usage
                      ["military"] ["Tier3"; "Tier4"] ["shelves"])) as Heq
    by (vm_compute; reflexivity).
  repeat split; try (vm_compute; reflexivity).
  rewrite Heq. intros H.
  apply (f_equal (λ x, match x with inr e => TypeEntry.usages e | inl _ => [] end)) in H.
  simpl in H. discriminate H.
Qed.

(** C4: an optional integer field that is absent has no child node in the
    serialized record, whatever its text: no child carries the field's tag. *)
Theorem to_xml_absent_int_no_child (r : TypeEntry.t) (f : int_field) :
  field_get f r = None →
  ET.find (TypeEntry.to_xml r) (field_tag f) = None
  ∧ Forall (λ c, ET.tag c ≠ field_tag f) (ET.children (TypeEntry.to_xml r)).
Proof.
  intros Hf.
  assert (ET.findall (TypeEntry.to_xml r) (field_tag f) = []) as Hnone.
  { by rewrite findall_int_field, Hf. }
  split.
  - unfold ET.find. by rewrite Hnone.
  - by apply no_child_tagged.
Qed.

Lemma to_xml_absent_int_no_child_witness :
  field_get Restock sample_entry = None
  ∧ ET.find (TypeEntry.to_xml sample_entry) "restock" = None
  ∧ Forall (λ c, ET.tag c ≠ "restock") (ET.children (TypeEntry.to_xml sample_entry)).
Proof.
  split; [reflexivity|].
  apply (to_xml_absent_int_no_child sample_entry Restock). reflexivity.
Defined.

(** C5, as the code has it: a record whose flags are the six fixed keys is
    serialized with exactly one flags child, also when every flag is 0; the
    child has exactly the six attributes, each the decimal text of the
    integer stored for its flag.  For a flag that is 0 or 1 that text is
    "0" or "1". *)
Theorem to_xml_flags_child (r : TypeEntry.t) :
  dom (TypeEntry.flags r) = FLAG_KEYS →
  ∃ f, ET.findall (TypeEntry.to_xml r) "flags" = [f]
       ∧ dom (ET.attrib f) = FLAG_KEYS
       ∧ (∀ k, ET.get f k = Py.str <$> TypeEntry.flags r !! k)
       ∧ (∀ k, TypeEntry.flags r !! k = Some 0%Z → ET.get f k = Some "0")
       ∧ (∀ k, TypeEntry.flags r !! k = Some 1%Z → ET.get f k = Some "1").
Proof.
  intros Hdom. exists (flags_child r).
  destruct (flags_child_spec r) as (_ & Hattr & _).
  assert (∀ k, ET.get (flags_child r) k = Py.str <$> TypeEntry.flags r !! k) as Hget.
  { intros k. unfold ET.get. by rewrite Hattr, lookup_fmap. }
  split; [apply findall_flags|]. split; [by rewrite Hattr, dom_fmap_L|].
  split; [done|]. split; intros k Hk; by rewrite Hget, Hk.
Qed.

Lemma to_xml_flags_child_witness :
  (∀ k, k ∈ FLAG_KEYS → TypeEntry.flags sample_entry_all_false !! k = Some 0%Z)
  ∧ ∃ f, ET.findall (TypeEntry.to_xml sample_entry_all_false) "flags" = [f]
       ∧ dom (ET.attrib f) = FLAG_KEYS
       ∧ (∀ k, ET.get f k = Py.str <$> TypeEntry.flags sample_entry_all_false !! k)
       ∧ (∀ k, TypeEntry.flags sample_entry_all_false !! k = Some 0%Z →
               ET.get f k = Some "0")
       ∧ (∀ k, TypeEntry.flags sample_entry_all_false !! k = Some 1%Z →
               ET.get f k = Some "1").
Proof.
  split.
  - intros k Hk. unfold FLAG_KEYS in Hk. rewrite elem_of_list_to_set in Hk.
    repeat (apply elem_of_cons in Hk as [->|Hk]; [reflexivity|]).
    by apply elem_of_nil in Hk.
  - apply (to_xml_flags_child sample_entry_all_false).
    vm_compute. reflexivity.
Defined.

(** C5, as the claim has it, fails: [from_xml] stores whatever integer a
    flag attribute holds, and [to_xml] prints it.  The record parsed from a
    node with crafted="2" and deloot="-3" has the six flag keys, and its node
    carries crafted="2" and deloot="-3", neither "0" nor "1". *)
Lemma to_xml_flag_not_zero_or_one :
  TypeEntry.from_xml sample_odd_flags_element = Py.ret sample_entry_odd_flags
  ∧ dom (TypeEntry.flags sample_entry_odd_flags) = FLAG_KEYS
  ∧ ∃ f, ET.findall (TypeEntry.to_xml sample_entry_odd_flags) "flags" = [f]
       ∧ ET.get f "crafted" = Some "2"
       ∧ ET.get f "deloot" = Some "-3"
       ∧ ¬ (∀ k, k ∈ FLAG_KEYS → ET.get f k = Some "0" ∨ ET.get f k = Some "1").
Proof.
  split; [vm_compute; reflexivity|]. split; [vm_compute; reflexivity|].
  exists (flags_child sample_entry_odd_flags).
  split; [apply findall_flags|].
  assert (ET.get (flags_child sample_entry_odd_flags) "crafted" = Some "2") as Hc
    by (vm_compute; reflexivity).
  split; [exact Hc|]. split; [vm_compute; reflexivity|].
  intros Hall. destruct (Hall "crafted") as [H0|H1].
  - apply (bool_decide_unpack _). vm_compute. exact I.
  - rewrite Hc in H0. discriminate H0.
  - rewrite Hc in H1. discriminate H1.
Qed.

(** C10: a record whose category is the empty string is serialized without
    a category child, and parsing the node gives a record whose category is
    absent. *)
Theorem empty_category_becomes_absent (r : TypeEntry.t) :
  TypeEntry.category r = Some "" →
  ET.find (TypeEntry.to_xml r) "category" = None
  ∧ Forall (λ c, ET.tag c ≠ "category") (ET.children (TypeEntry.to_xml r))
  ∧ ∃ r', TypeEntry.from_xml (TypeEntry.to_xml r) = Py.ret r'
          ∧ TypeEntry.category r' = None.
Proof.
  intros Hcat.
  assert (ET.findall (TypeEntry.to_xml r) "category" = []) as Hnone.
  { rewrite findall_category. unfold category_child. by rewrite Hcat. }
  split; [unfold ET.find; by rewrite Hnone|].
  split; [by apply no_child_tagged|].
  destruct (from_xml_to_xml r) as (fl & Hr & _).
  eexists. split; [exact Hr|]. simpl. by rewrite Hcat.
Qed.

Lemma empty_category_becomes_absent_witness :
  TypeEntry.category sample_entry_empty_category = Some ""
  ∧ ET.find (TypeEntry.to_xml sample_entry_empty_category) "category" = None
  ∧ Forall (λ c, ET.tag c ≠ "category")
           (ET.children (TypeEntry.to_xml sample_entry_empty_category))
  ∧ ∃ r', TypeEntry.from_xml (TypeEntry.to_xml sample_entry_empty_category)
          = Py.ret r'
          ∧ TypeEntry.category r' = None.
Proof.
  split; [reflexivity|].
  apply (empty_category_becomes_absent sample_entry_empty_category). reflexivity.
Defined.

(** C8: [from_xml] returns a record on every element.  An optional integer
    whose child is missing, has no text, or has a text that does not strip to
    a non-empty integer literal is absent in that record; a flag whose
    attribute does not read as an integer keeps its default. *)
Theorem from_xml_never_raises (elem : ET.Element) :
  ∃ e, TypeEntry.from_xml elem = Py.ret e
    ∧ (∀ f, ET.find elem (field_tag f) = None → field_get f e = None)
    ∧ (∀ f c, ET.find elem (field_tag f) = Some c →
              ¬ (∃ s z, ET.text c = Some s ∧ Py.strip s ≠ ""
                        ∧ Py.int (Py.strip s) = Py.ret z) →
              field_get f e = None)
    ∧ (∀ f c s z, ET.find elem (field_tag f) = Some c →
              ET.text c = Some s → Py.strip s ≠ "" →
              Py.int (Py.strip s) = Py.ret z →
              field_get f e = Some z)
    ∧ (∀ fe k v, ET.find elem "flags" = Some fe → k ∈ FLAG_KEYS →
              ET.get fe k = Some v → (∀ z, Py.int v ≠ Py.ret z) →
              TypeEntry.flags e !! k = TypeEntry.default_flags !! k).
Proof.
  destruct (from_xml_spec elem) as (fl & Hr & Hfl).
  eexists. split; [exact Hr|].
  assert (∀ f, field_get f
    (TypeEntry.mk (default "" (ET.get elem "name"))
       (reread_int (ET.find elem "nominal")) (reread_int (ET.find elem "lifetime"))
       (reread_int (ET.find elem "restock")) (reread_int (ET.find elem "min"))
       (reread_int (ET.find elem "quantmin")) (reread_int (ET.find elem "quantmax"))
       (reread_int (ET.find elem "cost")) fl
       (c ← ET.find elem "category"; ET.get c "name")
       (TypeEntry.names_of elem "usage") (TypeEntry.names_of elem "value")
       (TypeEntry.names_of elem "tag"))
    = reread_int (ET.find elem (field_tag f))) as Hget by (by intros []).
  repeat split.
  - intros f Hf. by rewrite Hget, Hf.
  - intros f c Hf Hbad. rewrite Hget, Hf. unfold reread_int.
    destruct (ET.text c) as [s|]; [|done].
    destruct (String.eqb_spec (Py.strip s) "") as [|Hne]; [done|].
    destruct (Py.int (Py.strip s)) as [|z] eqn:Hint; [done|].
    destruct Hbad. by exists s, z.
  - intros f c s z Hf Hs Hne Hint. rewrite Hget, Hf. unfold reread_int.
    rewrite Hs, Hint. by destruct (String.eqb_spec (Py.strip s) "").
  - intros fe k v Hfe Hk Hv Hbad. cbn [TypeEntry.flags].
    rewrite Hfl, Hfe, decide_True by done. unfold reread_flag. rewrite Hv.
    destruct (Py.int v) as [|z] eqn:Hint; [done|]. by destruct (Hbad z).
Qed.

Lemma from_xml_never_raises_witness :
  ∃ e, TypeEntry.from_xml sample_lenient_element = Py.ret e
       ∧ TypeEntry.nominal e = None
       ∧ TypeEntry.lifetime e = Some 3600%Z
       ∧ TypeEntry.restock e = None
       ∧ TypeEntry.cost e = None
       ∧ TypeEntry.flags e !! "crafted" = Some 0%Z.
Proof.
  destruct (from_xml_never_raises sample_lenient_element)
    as (e & He & Hmissing & Hbad & Hgood & Hflag).
  exists e. split; [exact He|]. split_and!.
  - apply (Hbad Nominal (ET.mkElement "nominal" ∅ (Some "many") [])); [reflexivity|].
    intros (s & z & Hs & _ & Hint). injection Hs as <-.
    vm_compute in Hint. discriminate Hint.
  - apply (Hgood Lifetime (ET.mkElement "lifetime" ∅ (Some " 3600 ") []) " 3600 ").
    + reflexivity.
    + reflexivity.
    + vm_compute. discriminate.
    + vm_compute. reflexivity.
  - apply (Hbad Restock (ET.mkElement "restock" ∅ None [])); [reflexivity|].
    intros (s & z & Hs & _). discriminate Hs.
  - apply (Hmissing Cost). reflexivity.
  - rewrite (Hflag (ET.mkElement "flags"
                      (<["crafted" := "yes"]> {[ "deloot" := "1" ]}) None [])
                   "crafted" "yes").
    + reflexivity.
    + reflexivity.
    + apply (bool_decide_unpack _). vm_compute. exact I.
    + reflexivity.
    + intros z Hz. vm_compute in Hz. discriminate Hz.
Defined.

End RecordModel.

(** * The collection manager *)

Section Saving.

Lemma enumerate_lookup_from {A : Type} (xs : list A) (s k : nat) :
  zip (seq s (length xs)) xs !! k = (λ x, (s + k, x)) <$> xs !! k.
Proof.
  revert s k. induction xs as [|x xs IH]; intros s k; simpl; [done|].
  destruct k as [|k]; simpl.
  - by rewrite Nat.add_0_r.
  - rewrite IH. by rewrite Nat.add_succ_r.
Qed.

Lemma elem_of_enumerate {A : Type} (xs : list A) (j : nat) (x : A) :
  (j, x) ∈ MainWindow.enumerate xs ↔ xs !! j = Some x.
Proof.
  unfold MainWindow.enumerate. rewrite list_elem_of_lookup. split.
  - intros [k Hk]. rewrite enumerate_lookup_from in Hk.
    destruct (xs !! k) as [y|] eqn:Hy; simplify_eq/=. done.
  - intros Hj. exists j. by rewrite enumerate_lookup_from, Hj.
Qed.

(** C6: with no position selected, saving a record whose name an existing
    record has is rejected with the duplicate warning, and the window, the
    collection included, is as it was. *)
Theorem add_existing_name_rejected (w : MainWindow.t) (entry : TypeEntry.t) :
  MainWindow.list_row w = None ∨ MainWindow.editor_current w = None →
  (∃ e, e ∈ MainWindow.entries w ∧ TypeEntry.name e = TypeEntry.name entry) →
  MainWindow.save_selected_changes (Some entry) w = (MainWindow.Warned "Duplicate", w).
Proof.
  intros Hsel (e & Hin & Hname). unfold MainWindow.save_selected_changes.
  assert (existsb (λ e, String.eqb (TypeEntry.name e) (TypeEntry.name entry))
                  (MainWindow.entries w) = true) as Hdup.
  { apply existsb_exists. exists e. split; [by apply list_elem_of_In|].
    by apply String.eqb_eq. }
  rewrite Hdup.
  destruct Hsel as [-> | ->]; [done|]. by destruct (MainWindow.list_row w).
Qed.

Lemma add_existing_name_rejected_witness :
  MainWindow.save_selected_changes (Some sample_entry) window_without_selection
  = (MainWindow.Warned "Duplicate", window_without_selection)
  ∧ length (MainWindow.entries
      (MainWindow.save_selected_changes (Some sample_entry)
         window_without_selection).2) = 1.
Proof.
  assert (MainWindow.save_selected_changes (Some sample_entry)
            window_without_selection
          = (MainWindow.Warned "Duplicate", window_without_selection)) as H.
  { apply (add_existing_name_rejected window_without_selection sample_entry).
    - left. reflexivity.
    - exists sample_entry. split; [|reflexivity].
      simpl. apply list_elem_of_here. }
  split; [exact H|]. rewrite H. reflexivity.
Defined.

(** With no position selected, a record with a new name is appended. *)
Lemma add_new_name_appends (w : MainWindow.t) (entry : TypeEntry.t) :
  MainWindow.list_row w = None ∨ MainWindow.editor_current w = None →
  (∀ e, e ∈ MainWindow.entries w → TypeEntry.name e ≠ TypeEntry.name entry) →
  ∃ w', MainWindow.save_selected_changes (Some entry) w = (MainWindow.Returned, w')
        ∧ MainWindow.entries w' = MainWindow.entries w ++ [entry].
Proof.
  intros Hsel Hnew. unfold MainWindow.save_selected_changes.
  assert (existsb (λ e, String.eqb (TypeEntry.name e) (TypeEntry.name entry))
                  (MainWindow.entries w) = false) as Hdup.
  { apply not_true_is_false. intros (e & Hin & He)%existsb_exists.
    apply String.eqb_eq in He. by apply (Hnew e); [apply list_elem_of_In|]. }
  rewrite Hdup.
  assert (∀ w0, MainWindow.entries (MainWindow.after_save entry w0)
                = MainWindow.entries w0) as Hkeep.
  { intros w0. unfold MainWindow.after_save, MainWindow.refresh_list,
      MainWindow.setCurrentRow, MainWindow.on_select.
    repeat (case_match; simpl); done. }
  eexists. split.
  - destruct Hsel as [-> | ->]; [done|]. by destruct (MainWindow.list_row w).
  - by rewrite Hkeep.
Qed.

(** With a position selected and no other record of that name, the slot
    stops at the assignment: the name on its right-hand side is unbound. *)
Lemma update_raises (w : MainWindow.t) (entry cur : TypeEntry.t) (idx : nat) :
  MainWindow.list_row w = Some idx →
  MainWindow.editor_current w = Some cur →
  (∀ j e, MainWindow.entries w !! j = Some e → j ≠ idx →
          TypeEntry.name e ≠ TypeEntry.name entry) →
  MainWindow.save_selected_changes (Some entry) w
  = (MainWindow.Raised (Py.NameError "entryry"), w).
Proof.
  intros Hrow Hcur Hother. unfold MainWindow.save_selected_changes.
  rewrite Hrow, Hcur.
  destruct (existsb _ _) eqn:Hdup; [|done].
  apply existsb_exists in Hdup as ([j e] & Hin & He).
  apply filter_In in Hin as [Hin Hj]. simpl in *.
  apply String.eqb_eq in He. apply negb_true_iff, Nat.eqb_neq in Hj.
  apply list_elem_of_In, elem_of_enumerate in Hin. by destruct (Hother j e Hin Hj).
Qed.

End Saving.

Section SavingOverSelection.

(** C2, at an input on which the code fails it: one record, selected and
    loaded in the editor, is saved under a name no other record has.  The
    slot raises [NameError] at the assignment that should replace the record,
    and the collection still holds the old record, not the new one. *)
Theorem save_over_selection_raises :
  MainWindow.save_selected_changes (Some renamed_entry) window_with_selection
  = (MainWindow.Raised (Py.NameError "entryry"), window_with_selection)
  ∧ MainWindow.entries
      (MainWindow.save_selected_changes (Some renamed_entry) window_with_selection).2
    = [sample_entry]
  ∧ MainWindow.entries
      (MainWindow.save_selected_changes (Some renamed_entry) window_with_selection).2
    ≠ <[0 := renamed_entry]> (MainWindow.entries window_with_selection).
Proof.
  assert (MainWindow.save_selected_changes (Some renamed_entry) window_with_selection
          = (MainWindow.Raised (Py.NameError "entryry"), window_with_selection)) as H
    by reflexivity.
  rewrite H. split; [done|]. split; [done|].
  simpl. intros Heq.
  apply (f_equal (λ l, TypeEntry.name <$> l)) in Heq. discriminate Heq.
Qed.

End SavingOverSelection.

Section Importing.

(** C7: a document whose root is not tagged [types] is not imported: the
    slot reports the failure and the window, with its collection and its
    category pool, is as it was. *)
Theorem import_rejects_other_root (w : MainWindow.t) (path : string) (root : ET.Element) :
  path ≠ "" →
  ET.tag root ≠ "types" →
  MainWindow.action_import path (Py.ret root) w
  = (MainWindow.Failed "Import Failed", w).
Proof.
  intros Hpath Hroot. unfold MainWindow.action_import, Py.truthy.
  destruct (String.eqb_spec path ""); [done|]. simpl.
  by destruct (String.eqb_spec (ET.tag root) "types").
Qed.

Lemma import_rejects_other_root_witness :
  ET.tag items_document = "items"
  ∧ MainWindow.action_import "types.xml" (Py.ret items_document) window_with_selection
    = (MainWindow.Failed "Import Failed", window_with_selection)
  ∧ MainWindow.entries
      (MainWindow.action_import "types.xml" (Py.ret items_document)
         window_with_selection).2 = [sample_entry]
  ∧ MainWindow.category_pool
      (MainWindow.action_import "types.xml" (Py.ret items_document)
         window_with_selection).2 = ["weapons"].
Proof.
  assert (MainWindow.action_import "types.xml" (Py.ret items_document)
            window_with_selection
          = (MainWindow.Failed "Import Failed", window_with_selection)) as H.
  { apply (import_rejects_other_root window_with_selection "types.xml"
             items_document).
    - discriminate.
    - simpl. discriminate. }
  split; [reflexivity|]. split; [exact H|]. rewrite H. split; reflexivity.
Defined.

(** A failed parse of the file leaves the window alone as well. *)
Lemma import_parse_error (w : MainWindow.t) (path : string) (e : Py.exn) :
  (MainWindow.action_import path (Py.raise e) w).2 = w.
Proof. unfold MainWindow.action_import. by destruct (negb (Py.truthy path)). Qed.

Lemma import_loop_spec (elems : list ET.Element) (acc : list TypeEntry.t * gset string) :
  ∃ es, Py.for_each MainWindow.import_type elems acc
        = Py.ret (acc.1 ++ es, categories_of es ∪ acc.2)
        ∧ Forall2 (λ el e, TypeEntry.from_xml el = Py.ret e) elems es.
Proof.
  revert acc. induction elems as [|el elems IH]; intros acc.
  - exists []. split; [|constructor]. simpl. rewrite app_nil_r.
    unfold categories_of. simpl. rewrite (left_id_L ∅ (∪)). by destruct acc.
  - destruct (from_xml_spec el) as (fl & Hel & _). simpl.
    unfold MainWindow.import_type at 1. rewrite Hel.
    cbn [Py.bind Py.ret TypeEntry.category].
    match goal with
    | |- context [Py.for_each _ _ ?a] => destruct (IH a) as (es & -> & Hes)
    end.
    eexists (_ :: es). split; [|constructor; [exact Hel|exact Hes]].
    cbn [fst snd]. rewrite <-app_assoc. f_equal. f_equal.
    unfold categories_of. cbn [omap list_omap TypeEntry.category].
    unfold reread_category at 2.
    destruct (c ← ET.find el "category"; ET.get c "name") as [c|]; simpl;
      [destruct (Py.truthy c)|]; simpl; [|done..].
    by rewrite (assoc_L (∪)), (comm_L (∪) _ {[c]}).
Qed.

Lemma setCurrentRow_keeps (row : option nat) (w : MainWindow.t) :
  MainWindow.entries (MainWindow.setCurrentRow row w) = MainWindow.entries w
  ∧ MainWindow.category_pool (MainWindow.setCurrentRow row w)
    = MainWindow.category_pool w.
Proof.
  unfold MainWindow.setCurrentRow, MainWindow.on_select.
  repeat case_match; done.
Qed.

Lemma action_import_ok (w : MainWindow.t) (path : string)
    (parsed : Py.result ET.Element) (es : list TypeEntry.t) (cats : gset string) :
  path ≠ "" →
  MainWindow.read_document parsed = Py.ret (es, cats) →
  ∃ w', MainWindow.action_import path parsed w = (MainWindow.Returned, w')
        ∧ MainWindow.entries w' = es
        ∧ MainWindow.category_pool w'
          = MainWindow.sorted (list_to_set CATEGORY_PRESETS ∪ cats).
Proof.
  intros Hpath Hdoc. unfold MainWindow.action_import, Py.truthy.
  destruct (String.eqb_spec path ""); [done|]. cbn [negb].
  rewrite Hdoc. unfold Py.ret. eexists. split; [reflexivity|].
  set (w1 := MainWindow.set_current_path _ _).
  assert (MainWindow.entries w1 = es) as H1.
  { unfold w1, MainWindow.refresh_list, MainWindow.set_current_path.
    cbn [MainWindow.entries]. by rewrite (proj1 (setCurrentRow_keeps _ _)). }
  assert (MainWindow.category_pool w1
          = MainWindow.sorted (list_to_set CATEGORY_PRESETS ∪ cats)) as H2.
  { unfold w1, MainWindow.refresh_list, MainWindow.set_current_path.
    cbn [MainWindow.category_pool]. by rewrite (proj2 (setCurrentRow_keeps _ _)). }
  destruct (MainWindow.entries w1) eqn:E.
  - by rewrite E.
  - by rewrite (proj1 (setCurrentRow_keeps _ _)), (proj2 (setCurrentRow_keeps _ _)), E.
Qed.

(** What a successful import leaves in the window. *)
Lemma import_spec (w : MainWindow.t) (path : string) (root : ET.Element) :
  path ≠ "" →
  ET.tag root = "types" →
  ∃ es w',
    MainWindow.action_import path (Py.ret root) w = (MainWindow.Returned, w')
    ∧ Forall2 (λ el e, TypeEntry.from_xml el = Py.ret e) (ET.findall root "type") es
    ∧ MainWindow.entries w' = es
    ∧ MainWindow.category_pool w'
      = MainWindow.sorted (list_to_set CATEGORY_PRESETS ∪ categories_of es).
Proof.
  intros Hpath Hroot.
  destruct (import_loop_spec (ET.findall root "type") ([], ∅)) as (es & Hloop & Hes).
  destruct (action_import_ok w path (Py.ret root) es (categories_of es) Hpath)
    as (w' & Hw' & Hentries & Hpool).
  { unfold MainWindow.read_document. cbn [Py.bind Py.ret]. rewrite Hroot.
    cbn [String.eqb Ascii.eqb Bool.eqb negb]. rewrite Hloop. cbn [fst snd app].
    by rewrite (right_id_L ∅ (∪)). }
  by exists es, w'.
Qed.

Lemma sorted_spec (s : gset string) :
  StronglySorted String.le (MainWindow.sorted s)
  ∧ NoDup (MainWindow.sorted s)
  ∧ ∀ c, c ∈ MainWindow.sorted s ↔ c ∈ s.
Proof.
  unfold MainWindow.sorted. split; [|split].
  - apply StronglySorted_merge_sort; apply _.
  - rewrite merge_sort_Permutation. apply NoDup_elements.
  - intros c. by rewrite merge_sort_Permutation, elem_of_elements.
Qed.

Lemma elem_of_categories_of (es : list TypeEntry.t) (c : string) :
  c ∈ categories_of es ↔ c ≠ "" ∧ ∃ e, e ∈ es ∧ TypeEntry.category e = Some c.
Proof.
  unfold categories_of. rewrite elem_of_list_to_set, list_elem_of_omap.
  unfold reread_category, Py.truthy. split.
  - intros (e & He & Hc). destruct (TypeEntry.category e) as [c'|] eqn:Hcat; [|done].
    destruct (String.eqb_spec c' ""); simplify_eq/=. eauto.
  - intros (Hne & e & He & Hcat). exists e. split; [done|]. rewrite Hcat.
    by destruct (String.eqb_spec c "").
Qed.

End Importing.

Section CategoryPool.

(** C3, as the code has it: after two imports in succession the category
    pool is the baseline set together with the non-empty categories of the
    records of the second document, sorted and without duplicates.  What
    the first document contributed is gone. *)
Theorem import_twice_category_pool (w : MainWindow.t) (p1 p2 : string)
    (d1 d2 : ET.Element) :
  p1 ≠ "" → p2 ≠ "" →
  ET.tag d1 = "types" → ET.tag d2 = "types" →
  ∃ w1 w2,
    MainWindow.action_import p1 (Py.ret d1) w = (MainWindow.Returned, w1)
    ∧ MainWindow.action_import p2 (Py.ret d2) w1 = (MainWindow.Returned, w2)
    ∧ Forall2 (λ el e, TypeEntry.from_xml el = Py.ret e)
              (ET.findall d2 "type") (MainWindow.entries w2)
    ∧ MainWindow.category_pool w2
      = MainWindow.sorted (list_to_set CATEGORY_PRESETS
                           ∪ categories_of (MainWindow.entries w2))
    ∧ StronglySorted String.le (MainWindow.category_pool w2)
    ∧ NoDup (MainWindow.category_pool w2)
    ∧ ∀ c, c ∈ MainWindow.category_pool w2
           ↔ c ∈ CATEGORY_PRESETS
             ∨ (c ≠ "" ∧ ∃ e, e ∈ MainWindow.entries w2
                              ∧ TypeEntry.category e = Some c).
Proof.
  intros Hp1 Hp2 Hd1 Hd2.
  destruct (import_spec w p1 d1 Hp1 Hd1) as (es1 & w1 & Hw1 & _).
  destruct (import_spec w1 p2 d2 Hp2 Hd2) as (es2 & w2 & Hw2 & Hes2 & Hent & Hpool).
  exists w1, w2. subst es2.
  destruct (sorted_spec (list_to_set CATEGORY_PRESETS
                         ∪ categories_of (MainWindow.entries w2)))
    as (Hsorted & Hnodup & Hmem).
  rewrite <-Hpool in Hsorted, Hnodup, Hmem.
  repeat split; try done.
  - intros Hc%Hmem. apply elem_of_union in Hc as [Hc|Hc].
    + left. by apply elem_of_list_to_set in Hc.
    + right. by apply elem_of_categories_of.
  - intros Hc. apply Hmem, elem_of_union. destruct Hc as [Hc|Hc].
    + left. by apply elem_of_list_to_set.
    + right. by apply elem_of_categories_of.
Qed.

Lemma import_twice_category_pool_witness :
  ∃ w1 w2,
    MainWindow.action_import "first.xml" (Py.ret first_document) initial_window
    = (MainWindow.Returned, w1)
    ∧ MainWindow.action_import "second.xml" (Py.ret second_document) w1
      = (MainWindow.Returned, w2)
    ∧ Forall2 (λ el e, TypeEntry.from_xml el = Py.ret e)
              (ET.findall second_document "type") (MainWindow.entries w2)
    ∧ MainWindow.category_pool w2
      = MainWindow.sorted (list_to_set CATEGORY_PRESETS
                           ∪ categories_of (MainWindow.entries w2))
    ∧ StronglySorted String.le (MainWindow.category_pool w2)
    ∧ NoDup (MainWindow.category_pool w2)
    ∧ ∀ c, c ∈ MainWindow.category_pool w2
           ↔ c ∈ CATEGORY_PRESETS
             ∨ (c ≠ "" ∧ ∃ e, e ∈ MainWindow.entries w2
                              ∧ TypeEntry.category e = Some c).
Proof.
  apply (import_twice_category_pool initial_window "first.xml" "second.xml"
           first_document second_document).
  - discriminate.
  - discriminate.
  - reflexivity.
  - reflexivity.
Defined.

(** C3, as the claim has it, fails: the two documents share "weapons", the
    first alone has "relics", the second alone "vehicles".  After both
    imports "relics" is not in the pool, so the pool is not the sorted union
    of the categories of both documents and the baseline. *)
Lemma import_twice_forgets_first :
  let w1 := (MainWindow.action_import "first.xml" (Py.ret first_document)
               initial_window).2 in
  let w2 := (MainWindow.action_import "second.xml" (Py.ret second_document) w1).2 in
  categories_of (MainWindow.entries w1) = {[ "weapons"; "relics" ]}
  ∧ categories_of (MainWindow.entries w2) = {[ "weapons"; "vehicles" ]}
  ∧ MainWindow.category_pool w2
    = ["books"; "clothes"; "containers"; "explosives"; "food"; "lootdispatch";
       "tools"; "vehicles"; "weapons"]
  ∧ ("relics" ∉ MainWindow.category_pool w2)
  ∧ MainWindow.category_pool w2
    ≠ MainWindow.sorted (list_to_set CATEGORY_PRESETS
                         ∪ categories_of (MainWindow.entries w1)
                         ∪ categories_of (MainWindow.entries w2)).
Proof.
  cbv zeta.
  assert (MainWindow.category_pool
            (MainWindow.action_import "second.xml" (Py.ret second_document)
               (MainWindow.action_import "first.xml" (Py.ret first_document)
                  initial_window).2).2
          = ["books"; "clothes"; "containers"; "explosives"; "food"; "lootdispatch";
             "tools"; "vehicles"; "weapons"]) as Hpool
    by (vm_compute; reflexivity).
  rewrite Hpool.
  split; [vm_compute; reflexivity|]. split; [vm_compute; reflexivity|].
  split; [reflexivity|]. split.
  - intros Hin. repeat (apply elem_of_cons in Hin as [Hin|Hin]; [discriminate Hin|]).
    by apply elem_of_nil in Hin.
  - intros Heq. vm_compute in Heq. discriminate Heq.
Qed.

End CategoryPool.

(** * Duplicating a record *)

Section Duplicating.

Lemma alloc_spec (h : gmap positive Store.cell) (c : Store.cell) :
  ((Store.alloc h c).1 ∉ dom h)
  ∧ (Store.alloc h c).2 !! (Store.alloc h c).1 = Some c
  ∧ (∀ a, a ∈ dom h → (Store.alloc h c).2 !! a = h !! a)
  ∧ dom h ⊆ dom (Store.alloc h c).2.
Proof.
  unfold Store.alloc. simpl. pose proof (is_fresh (dom h)) as Hfresh.
  split; [done|]. split; [apply lookup_insert_eq|]. split.
  - intros a Ha. apply lookup_insert_ne. by intros <-.
  - rewrite dom_insert_L. set_solver.
Qed.

Lemma extends_trans h1 h2 h3 :
  dom h1 ⊆ dom h2 → extends h1 h2 → extends h2 h3 → extends h1 h3.
Proof. intros Hsub H12 H23 a Ha. rewrite H23 by set_solver. by apply H12. Qed.

Lemma read_dict_dom h l d : Store.read_dict h l = Some d → l ∈ dom h.
Proof.
  unfold Store.read_dict. intros H. apply elem_of_dom.
  destruct (h !! l); [by eexists|done].
Qed.

Lemma read_list_dom h l xs : Store.read_list h l = Some xs → l ∈ dom h.
Proof.
  unfold Store.read_list. intros H. apply elem_of_dom.
  destruct (h !! l); [by eexists|done].
Qed.

Lemma load_inv h o v :
  Store.load h o = Some v →
  ∃ fl us vs ts,
    Store.read_dict h (Store.flags o) = Some fl
    ∧ Store.read_list h (Store.usages o) = Some us
    ∧ Store.read_list h (Store.values o) = Some vs
    ∧ Store.read_list h (Store.tags o) = Some ts
    ∧ v = TypeEntry.mk (Store.name o) (Store.nominal o) (Store.lifetime o)
            (Store.restock o) (Store.min o) (Store.quantmin o) (Store.quantmax o)
            (Store.cost o) fl (Store.category o) us vs ts.
Proof.
  unfold Store.load. intros H.
  destruct (Store.read_dict h (Store.flags o)) as [fl|]; [|done].
  destruct (Store.read_list h (Store.usages o)) as [us|]; [|done].
  destruct (Store.read_list h (Store.values o)) as [vs|]; [|done].
  destruct (Store.read_list h (Store.tags o)) as [ts|]; [|done].
  simpl in H. injection H as <-. by exists fl, us, vs, ts.
Qed.

Lemma read_dict_extends h h' l d :
  extends h h' → Store.read_dict h l = Some d → Store.read_dict h' l = Some d.
Proof.
  intros Hext Hd. pose proof (read_dict_dom _ _ _ Hd) as Hl.
  unfold Store.read_dict in *. by rewrite (Hext l Hl).
Qed.

Lemma read_list_extends h h' l xs :
  extends h h' → Store.read_list h l = Some xs → Store.read_list h' l = Some xs.
Proof.
  intros Hext Hd. pose proof (read_list_dom _ _ _ Hd) as Hl.
  unfold Store.read_list in *. by rewrite (Hext l Hl).
Qed.

Lemma load_extends h h' o v :
  extends h h' → Store.load h o = Some v → Store.load h' o = Some v.
Proof.
  intros Hext (fl & us & vs & ts & Hfl & Hus & Hvs & Hts & ->)%load_inv.
  unfold Store.load.
  rewrite (read_dict_extends _ _ _ _ Hext Hfl), (read_list_extends _ _ _ _ Hext Hus),
    (read_list_extends _ _ _ _ Hext Hvs), (read_list_extends _ _ _ _ Hext Hts).
  reflexivity.
Qed.

Lemma view_extends h h' os vs :
  extends h h' → Store.view h os = Some vs → Store.view h' os = Some vs.
Proof.
  unfold Store.view. rewrite !mapM_Some. intros Hext Hos.
  eapply Forall2_impl; [exact Hos|]. intros o v. by apply load_extends.
Qed.

(** The constructor call of [duplicate_type] on the level of the store: the
    copy has the fields of the source under the new name, its four mutable
    objects are new, and no object of the old store is touched. *)
Lemma make_copy_spec h src v :
  Store.load h src = Some v →
  ∃ dup h',
    Store.make_copy h src = Some (dup, h')
    ∧ Store.load h' dup = Some (MainWindow.copy_of v)
    ∧ Forall (λ l, l ∉ dom h) (Store.containers dup)
    ∧ extends h h'.
Proof.
  intros (fl & us & vs & ts & Hfl & Hus & Hvs & Hts & ->)%load_inv.
  unfold Store.make_copy, Store.dict_copy, Store.list_copy.
  rewrite Hfl. cbn [mbind option_bind].
  destruct (alloc_spec h (Store.Dict fl)) as (Hf1 & Hl1 & He1 & Hd1).
  destruct (Store.alloc h (Store.Dict fl)) as [l1 h1]. cbn [fst snd] in *.
  rewrite (read_list_extends _ _ _ _ He1 Hus).
  cbn [mbind option_bind].
  destruct (alloc_spec h1 (Store.List us)) as (Hf2 & Hl2 & He2 & Hd2).
  destruct (Store.alloc h1 (Store.List us)) as [l2 h2]. cbn [fst snd] in *.
  assert (extends h h2) as He02 by by apply (extends_trans h h1 h2).
  rewrite (read_list_extends _ _ _ _ He02 Hvs).
  cbn [mbind option_bind].
  destruct (alloc_spec h2 (Store.List vs)) as (Hf3 & Hl3 & He3 & Hd3).
  destruct (Store.alloc h2 (Store.List vs)) as [l3 h3]. cbn [fst snd] in *.
  assert (extends h h3) as He03
    by (apply (extends_trans h h2 h3); [set_solver|done..]).
  rewrite (read_list_extends _ _ _ _ He03 Hts).
  cbn [mbind option_bind].
  destruct (alloc_spec h3 (Store.List ts)) as (Hf4 & Hl4 & He4 & Hd4).
  destruct (Store.alloc h3 (Store.List ts)) as [l4 h4]. cbn [fst snd] in *.
  assert (extends h h4) as He04
    by (apply (extends_trans h h3 h4); [set_solver|done..]).
  eexists _, h4. split; [reflexivity|]. split; [|split; [|done]].
  - unfold Store.load, Store.read_dict, Store.read_list. cbn [Store.flags
      Store.usages Store.values Store.tags].
    assert (l1 ∈ dom h1) as Hin1 by (apply elem_of_dom; by eexists).
    assert (l2 ∈ dom h2) as Hin2 by (apply elem_of_dom; by eexists).
    assert (l3 ∈ dom h3) as Hin3 by (apply elem_of_dom; by eexists).
    assert (h4 !! l1 = Some (Store.Dict fl)) as ->.
    { rewrite He4, He3, He2; [done|..]; auto. }
    assert (h4 !! l2 = Some (Store.List us)) as ->.
    { rewrite He4, He3; [done|..]; auto. }
    assert (h4 !! l3 = Some (Store.List vs)) as ->.
    { rewrite He4; [done|]; auto. }
    rewrite Hl4. reflexivity.
  - unfold Store.containers. cbn [Store.flags Store.usages Store.values Store.tags].
    repeat (apply Forall_cons; split); [..|apply Forall_nil]; set_solver.
Qed.

Lemma extends_insert_fresh h h' l c :
  extends h h' → l ∉ dom h → extends h (<[l := c]> h').
Proof.
  intros Hext Hl a Ha. rewrite lookup_insert_ne; [by apply Hext|]. by intros <-.
Qed.

(** C9: with row [i] of the list selected, [duplicate_type] puts one new
    record right behind it: the collection grows by one, the records before
    and behind keep their places, and the new record has the source's fields
    under the source's name followed by "_Copy".  Its flags and its three
    lists are objects of their own: writing to any of them afterwards leaves
    every record that was there before, the source included, as it was. *)
Theorem duplicate_type_inserts_copy (st : Store.t) (vs : list TypeEntry.t) (i : nat) :
  Store.view (Store.heap st) (Store.entries st) = Some vs →
  Store.list_row st = Some i →
  i < length vs →
  ∃ st' src dup,
    Store.duplicate_type st = Some (MainWindow.Returned, st')
    ∧ vs !! i = Some src
    ∧ Store.entries st'
      = take (S i) (Store.entries st) ++ dup :: drop (S i) (Store.entries st)
    ∧ Store.view (Store.heap st') (Store.entries st')
      = Some (take (S i) vs ++ MainWindow.copy_of src :: drop (S i) vs)
    ∧ length (Store.entries st') = S (length vs)
    ∧ (take (S i) vs ++ MainWindow.copy_of src :: drop (S i) vs) !! i = Some src
    ∧ (take (S i) vs ++ MainWindow.copy_of src :: drop (S i) vs) !! S i
      = Some (MainWindow.copy_of src)
    ∧ MainWindow.copy_of src
      = TypeEntry.mk (TypeEntry.name src +:+ "_Copy")
          (TypeEntry.nominal src) (TypeEntry.lifetime src) (TypeEntry.restock src)
          (TypeEntry.min src) (TypeEntry.quantmin src) (TypeEntry.quantmax src)
          (TypeEntry.cost src) (TypeEntry.flags src) (TypeEntry.category src)
          (TypeEntry.usages src) (TypeEntry.values src) (TypeEntry.tags src)
    ∧ (∀ l c, l ∈ Store.containers dup →
              Store.view (<[l := c]> (Store.heap st')) (Store.entries st) = Some vs)
    ∧ (∀ w, MainWindow.entries w = vs → MainWindow.list_row w = Some i →
            (MainWindow.duplicate_type w).1 = MainWindow.Returned
            ∧ MainWindow.entries (MainWindow.duplicate_type w).2
              = take (S i) vs ++ MainWindow.copy_of src :: drop (S i) vs).
Proof.
  intros Hview Hrow Hi.
  pose proof Hview as Hall. unfold Store.view in Hall. apply mapM_Some in Hall.
  pose proof (Forall2_length _ _ _ Hall) as Hlen.
  destruct (lookup_lt_is_Some_2 vs i Hi) as [src Hsrc].
  destruct (Forall2_lookup_r _ _ _ _ _ Hall Hsrc) as (so & Hso & Hload).
  destruct (make_copy_spec _ _ _ Hload) as (dup & h' & Hcopy & Hdup & Hfresh & Hext).
  exists (Store.mk h' (MainWindow.list_insert_at (S i) dup (Store.entries st))
            (Some (S i))), src, dup.
  assert (length (take (S i) vs) = S i) as Htake.
  { rewrite length_take. lia. }
  split_and!.
  - unfold Store.duplicate_type. rewrite Hrow, Hso, Hcopy. reflexivity.
  - done.
  - reflexivity.
  - cbn [Store.heap Store.entries]. unfold Store.view, MainWindow.list_insert_at.
    apply mapM_Some, Forall2_app; [|constructor; [done|]].
    + apply Forall2_take. eapply Forall2_impl; [exact Hall|].
      intros o v. by apply load_extends.
    + apply Forall2_drop. eapply Forall2_impl; [exact Hall|].
      intros o v. by apply load_extends.
  - cbn [Store.entries]. unfold MainWindow.list_insert_at.
    rewrite length_app, length_cons, length_take, length_drop. lia.
  - rewrite lookup_app_l by lia. rewrite lookup_take_lt by lia. done.
  - rewrite lookup_app_r by lia. by rewrite Htake, Nat.sub_diag.
  - done.
  - intros l c Hl. eapply view_extends; [|exact Hview].
    apply extends_insert_fresh; [done|].
    by apply (proj1 (Forall_forall _ _) Hfresh).
  - intros w Hw Hsel. unfold MainWindow.duplicate_type. rewrite Hsel, Hw, Hsrc.
    split; [reflexivity|]. cbn [snd]. unfold MainWindow.refresh_list.
    by rewrite !(proj1 (setCurrentRow_keeps _ _)).
Qed.

Lemma duplicate_type_inserts_copy_witness :
  ∃ st' dup,
    Store.duplicate_type sample_store = Some (MainWindow.Returned, st')
    ∧ Store.view (Store.heap st') (Store.entries st')
      = Some [sample_entry; MainWindow.copy_of sample_entry]
    ∧ TypeEntry.name (MainWindow.copy_of sample_entry) = "AKM_Copy"
    ∧ Store.entries st' = Store.entries sample_store ++ [dup]
    ∧ ∀ l c, l ∈ Store.containers dup →
             Store.view (<[l := c]> (Store.heap st')) (Store.entries sample_store)
             = Some [sample_entry].
Proof.
  destruct (duplicate_type_inserts_copy sample_store [sample_entry] 0)
    as (st' & src & dup & Hrun & Hsrc & Hentries & Hview & _ & _ & _ & _ & Hmut & _).
  - vm_compute. reflexivity.
  - reflexivity.
  - simpl. lia.
  - injection Hsrc as <-. exists st', dup.
    split; [exact Hrun|]. split; [exact Hview|]. split; [reflexivity|].
    split; [exact Hentries|]. exact Hmut.
Defined.

End Duplicating.

(** * Further properties of the record model *)

Section RecordModelMore.

(** The same statement as the round trip of a well-formed record, for use
    below. *)
Lemma from_xml_to_xml_well_formed (r : TypeEntry.t) :
  well_formed r → TypeEntry.from_xml (TypeEntry.to_xml r) = Py.ret r.
Proof.
  intros (Hdom & Hcat & Hus & Hvs & Hts).
  destruct (from_xml_to_xml r) as (fl & -> & Hfl).
  rewrite !reread_names_id by done.
  assert (fl = TypeEntry.flags r) as ->.
  { apply map_eq. intros i. rewrite Hfl.
    destruct (decide (i ∈ FLAG_KEYS)) as [Hi|Hi].
    - rewrite <-Hdom in Hi. apply elem_of_dom in Hi as [v ->]. done.
    - assert (TypeEntry.flags r !! i = None) as ->.
      { apply not_elem_of_dom. by rewrite Hdom. }
      apply not_elem_of_dom.
      by replace (dom TypeEntry.default_flags) with FLAG_KEYS by by vm_compute. }
  assert (reread_category (TypeEntry.category r) = TypeEntry.category r) as ->.
  { unfold reread_category, Py.truthy.
    destruct (TypeEntry.category r) as [c|]; [|done].
    destruct (String.eqb_spec c "") as [->|]; done. }
  by destruct r.
Qed.


Lemma reread_names_nonempty xs : Forall (λ x, x ≠ "") (reread_names xs).
Proof.
  unfold reread_names. apply Forall_forall. intros x Hx.
  apply list_elem_of_In, filter_In in Hx as [_ Hx].
  unfold Py.truthy in Hx. by destruct (String.eqb_spec x "").
Qed.

Lemma dom_default_flags : dom TypeEntry.default_flags = FLAG_KEYS.
Proof. by vm_compute. Qed.


(** X2: one pass through [to_xml] and [from_xml] brings any record to a form
    that a further pass gives back unchanged. *)
Theorem roundtrip_reaches_fixed_point (r : TypeEntry.t) :
  ∃ r', TypeEntry.from_xml (TypeEntry.to_xml r) = Py.ret r'
        ∧ TypeEntry.from_xml (TypeEntry.to_xml r') = Py.ret r'.
Proof.
  destruct (from_xml_to_xml r) as (fl & Hr & Hfl).
  eexists. split; [exact Hr|]. apply from_xml_to_xml_well_formed.
  unfold well_formed. cbn [TypeEntry.flags TypeEntry.category TypeEntry.usages
    TypeEntry.values TypeEntry.tags].
  split_and!; try apply reread_names_nonempty.
  - apply set_eq. intros i. rewrite elem_of_dom, Hfl.
    destruct (decide (i ∈ FLAG_KEYS)) as [Hi|Hi].
    + split; [done|]. intros _.
      pose proof Hi as Hd. rewrite <-dom_default_flags in Hd.
      apply elem_of_dom in Hd as [v Hv]. rewrite Hv.
      destruct (TypeEntry.flags r !! i); by eexists.
    + by rewrite <-elem_of_dom, dom_default_flags.
  - unfold reread_category, Py.truthy.
    destruct (TypeEntry.category r) as [c|]; [|done].
    destruct (String.eqb_spec c ""); [done|]. simpl. congruence.
Qed.

Lemma findall_append_other elem c tg :
  ET.tag c ≠ tg → ET.findall (ET.append elem c) tg = ET.findall elem tg.
Proof.
  intros Hne. unfold ET.findall, ET.append. cbn [ET.children].
  rewrite List.filter_app. cbn [List.filter]. unfold ET.has_tag at 2.
  destruct (String.eqb_spec (ET.tag c) tg); [done|]. by rewrite app_nil_r.
Qed.

(** X3: a child under a tag [from_xml] does not look for changes nothing:
    the record parsed from the node with that child appended is the record
    parsed from the node without it. *)
Theorem from_xml_ignores_foreign_child (elem c : ET.Element) :
  ET.tag c ∉ RECOGNIZED_TAGS →
  TypeEntry.from_xml (ET.append elem c) = TypeEntry.from_xml elem.
Proof.
  intros Hc. unfold RECOGNIZED_TAGS in Hc.
  repeat (apply not_elem_of_cons in Hc as [? Hc]).
  unfold TypeEntry.from_xml, TypeEntry.get_int, TypeEntry.names_of, ET.find.
  rewrite !findall_append_other by done. reflexivity.
Qed.

Lemma from_xml_ignores_foreign_child_witness :
  TypeEntry.from_xml (ET.append (TypeEntry.to_xml sample_entry) sample_foreign_child)
  = Py.ret sample_entry.
Proof.
  rewrite (from_xml_ignores_foreign_child (TypeEntry.to_xml sample_entry)
             sample_foreign_child).
  - vm_compute. reflexivity.
  - apply (bool_decide_unpack _). vm_compute. exact I.
Defined.

Lemma to_xml_root r :
  ET.tag (TypeEntry.to_xml r) = "type"
  ∧ ET.attrib (TypeEntry.to_xml r) = {[ "name" := TypeEntry.name r ]}.
Proof.
  unfold TypeEntry.to_xml. rewrite orb_true_r.
  repeat match goal with
  | |- context [TypeEntry.put_names ?t ?tg ?xs] =>
      let Ht := fresh in let Ha := fresh in
      destruct (put_names_spec t tg xs) as (Ht & Ha & _); rewrite Ht, Ha;
      clear Ht Ha
  end.
  assert (∀ t0, ET.tag
            match TypeEntry.category r with
            | Some c => if Py.truthy c
                        then ET.append t0 (ET.set (ET.new "category" ∅) "name" c)
                        else t0
            | None => t0
            end = ET.tag t0
          ∧ ET.attrib
            match TypeEntry.category r with
            | Some c => if Py.truthy c
                        then ET.append t0 (ET.set (ET.new "category" ∅) "name" c)
                        else t0
            | None => t0
            end = ET.attrib t0) as Hcat.
  { intros t0. destruct (TypeEntry.category r) as [c|]; [destruct (Py.truthy c)|];
      done. }
  rewrite (proj1 (Hcat _)), (proj2 (Hcat _)).
  cbn [ET.append ET.attrib ET.tag].
  repeat match goal with
  | |- context [TypeEntry.put_int ?t ?tg ?v] =>
      let Ht := fresh in let Ha := fresh in
      destruct (put_int_spec t tg v) as (Ht & Ha & _); rewrite Ht, Ha;
      clear Ht Ha
  end.
  done.
Qed.

Lemma int_child_tags tg val : ET.tag <$> int_child tg val = present_tag tg val.
Proof. by destruct val. Qed.

Lemma name_children_tags tg xs :
  ET.tag <$> name_children tg xs = replicate (length xs) tg.
Proof.
  unfold name_children. induction xs as [|x xs IH]; [done|].
  simpl. by rewrite <-IH.
Qed.

(** X4: the node of a record is a [type] element whose only attribute is the
    name, and its children come in the order of the document format: the
    present integers in their fixed order, the flags, the category if it is
    non-empty, then every usage, every value, every tag. *)
Theorem to_xml_document_order (r : TypeEntry.t) :
  ET.tag (TypeEntry.to_xml r) = "type"
  ∧ ET.attrib (TypeEntry.to_xml r) = {[ "name" := TypeEntry.name r ]}
  ∧ ET.tag <$> ET.children (TypeEntry.to_xml r) = schema_tags r.
Proof.
  destruct (to_xml_root r) as [Htag Hattr]. split; [done|]. split; [done|].
  rewrite to_xml_children. unfold groups, schema_tags.
  cbn [fmap list_fmap snd concat]. rewrite app_nil_r.
  rewrite !fmap_app, !int_child_tags, !name_children_tags.
  repeat f_equal.
  - cbn. by destruct (flags_child_spec r) as (-> & _).
  - unfold category_child, reread_category.
    destruct (TypeEntry.category r) as [c|]; [destruct (Py.truthy c)|]; done.
Qed.

End RecordModelMore.

(** * Further properties of the collection manager *)

Section Selection.

Lemma setCurrentRow_path (row : option nat) (w : MainWindow.t) :
  MainWindow.current_path (MainWindow.setCurrentRow row w) = MainWindow.current_path w.
Proof.
  unfold MainWindow.setCurrentRow, MainWindow.on_select.
  repeat case_match; done.
Qed.

Lemma setCurrentRow_none (w : MainWindow.t) :
  MainWindow.list_row (MainWindow.setCurrentRow None w) = None
  ∧ (MainWindow.list_row w ≠ None →
     MainWindow.editor_current (MainWindow.setCurrentRow None w) = None).
Proof.
  unfold MainWindow.setCurrentRow. case_bool_decide as Hrow; simpl.
  - done.
  - done.
Qed.

Lemma setCurrentRow_some (i : nat) (e : TypeEntry.t) (w : MainWindow.t) :
  MainWindow.entries w !! i = Some e →
  MainWindow.list_row w = None →
  MainWindow.list_row (MainWindow.setCurrentRow (Some i) w) = Some i
  ∧ MainWindow.editor_current (MainWindow.setCurrentRow (Some i) w) = Some e.
Proof.
  intros He Hrow. unfold MainWindow.setCurrentRow.
  assert (bool_decide (i < length (MainWindow.entries w)) = true) as ->
    by (apply bool_decide_eq_true_2; by eapply lookup_lt_Some).
  rewrite Hrow. rewrite bool_decide_false by done.
  unfold MainWindow.on_select. cbn [MainWindow.set_list_row MainWindow.entries].
  by rewrite He.
Qed.

(** The state after [refresh_list] and then [setCurrentRow] on a row of the
    list. *)
Lemma refresh_then_select (i : nat) (e : TypeEntry.t) (w : MainWindow.t) :
  MainWindow.entries w !! i = Some e →
  MainWindow.setCurrentRow (Some i) (MainWindow.refresh_list w)
  = MainWindow.mk (MainWindow.entries w) (MainWindow.category_pool w)
      (MainWindow.current_path w) (Some i) (Some e).
Proof.
  intros He. unfold MainWindow.refresh_list.
  destruct (setCurrentRow_keeps None w) as [Hes Hpool].
  destruct (setCurrentRow_none w) as [Hrow _].
  pose proof (setCurrentRow_path None w) as Hpath.
  set (w1 := MainWindow.setCurrentRow None w) in *.
  assert (MainWindow.entries w1 !! i = Some e) as He1 by by rewrite Hes.
  destruct (setCurrentRow_some i e w1 He1 Hrow) as [Hrow2 Hed2].
  destruct (setCurrentRow_keeps (Some i) w1) as [Hes2 Hpool2].
  pose proof (setCurrentRow_path (Some i) w1) as Hpath2.
  destruct (MainWindow.setCurrentRow (Some i) w1) as [es p cp r ed].
  simpl in *. congruence.
Qed.

Lemma refresh_list_deselects (w : MainWindow.t) :
  MainWindow.list_row w ≠ None →
  MainWindow.refresh_list w
  = MainWindow.mk (MainWindow.entries w) (MainWindow.category_pool w)
      (MainWindow.current_path w) None None.
Proof.
  intros Hsel. unfold MainWindow.refresh_list.
  destruct (setCurrentRow_keeps None w) as [Hes Hpool].
  destruct (setCurrentRow_none w) as [Hrow Hed]. specialize (Hed Hsel).
  pose proof (setCurrentRow_path None w) as Hpath.
  destruct (MainWindow.setCurrentRow None w) as [es p cp r ed].
  simpl in *. congruence.
Qed.

End Selection.

Section Deleting.

Lemma delete_type_spec (w : MainWindow.t) (idx : nat) :
  MainWindow.list_row w = Some idx →
  idx < length (MainWindow.entries w) →
  MainWindow.delete_type w
  = (MainWindow.Returned,
     let es := delete idx (MainWindow.entries w) in
     let row :=
       match es with
       | [] => None
       | _ :: _ => Some (Nat.min idx (length es - 1))
       end in
     MainWindow.mk es (MainWindow.category_pool w) (MainWindow.current_path w)
       row (row ≫= λ i, es !! i)).
Proof.
  intros Hrow Hidx. unfold MainWindow.delete_type.
  rewrite Hrow.
  assert (bool_decide (idx < length (MainWindow.entries w)) = true) as ->
    by by apply bool_decide_eq_true_2.
  cbv zeta. f_equal.
  set (w1 := MainWindow.set_entries w (delete idx (MainWindow.entries w))).
  assert (MainWindow.list_row w1 ≠ None) as Hsel by (simpl; by rewrite Hrow).
  destruct (delete idx (MainWindow.entries w)) as [|e0 es'] eqn:Hdel.
  - rewrite (refresh_list_deselects w1 Hsel). unfold w1. reflexivity.
  - assert (MainWindow.entries (MainWindow.refresh_list w1) = e0 :: es') as Hes.
    { unfold MainWindow.refresh_list.
      rewrite (proj1 (setCurrentRow_keeps _ _)). reflexivity. }
    rewrite Hes.
    assert (Nat.min idx (length (e0 :: es') - 1) < length (e0 :: es')) as Hlt
      by (simpl; lia).
    destruct (lookup_lt_is_Some_2 _ _ Hlt) as [e He].
    rewrite (refresh_then_select _ e w1) by exact He.
    unfold w1. cbn [MainWindow.set_entries MainWindow.entries
      MainWindow.category_pool MainWindow.current_path mbind option_bind].
    by rewrite He.
Qed.

(** X5: with a row of the list selected, [delete_type] removes exactly the
    record of that row; the records before and behind keep their order, and
    the category pool keeps every category, also one no record has any
    more. *)
Theorem delete_type_removes_row (w : MainWindow.t) (idx : nat) :
  MainWindow.list_row w = Some idx →
  idx < length (MainWindow.entries w) →
  (MainWindow.delete_type w).1 = MainWindow.Returned
  ∧ MainWindow.entries (MainWindow.delete_type w).2
    = take idx (MainWindow.entries w) ++ drop (S idx) (MainWindow.entries w)
  ∧ S (length (MainWindow.entries (MainWindow.delete_type w).2))
    = length (MainWindow.entries w)
  ∧ MainWindow.category_pool (MainWindow.delete_type w).2
    = MainWindow.category_pool w.
Proof.
  intros Hrow Hidx. rewrite (delete_type_spec w idx Hrow Hidx). cbn.
  split; [done|]. split; [apply delete_take_drop|]. split; [|done].
  rewrite length_delete by by apply lookup_lt_is_Some_2. lia.
Qed.

Lemma delete_type_removes_row_witness :
  MainWindow.entries
    (MainWindow.delete_type
       (MainWindow.mk [sample_entry; renamed_entry] ["weapons"] None (Some 0)
          (Some sample_entry))).2
  = [renamed_entry]
  ∧ MainWindow.category_pool
      (MainWindow.delete_type
         (MainWindow.mk [sample_entry; renamed_entry] ["weapons"] None (Some 0)
            (Some sample_entry))).2
    = ["weapons"].
Proof.
  destruct (delete_type_removes_row
              (MainWindow.mk [sample_entry; renamed_entry] ["weapons"] None
                 (Some 0) (Some sample_entry)) 0)
    as (_ & Hes & _ & Hpool).
  - reflexivity.
  - simpl. lia.
  - split; [exact Hes|exact Hpool].
Defined.

(** X6: after [delete_type] the selection is on the row the deleted record
    had, or on the new last row when the last record was deleted, and the
    editor shows the record of that row; deleting the only record leaves
    nothing selected and the editor empty. *)
Theorem delete_type_moves_selection (w : MainWindow.t) (idx : nat) :
  MainWindow.list_row w = Some idx →
  idx < length (MainWindow.entries w) →
  let w' := (MainWindow.delete_type w).2 in
  (length (MainWindow.entries w) = 1 →
     MainWindow.list_row w' = None ∧ MainWindow.editor_current w' = None)
  ∧ (1 < length (MainWindow.entries w) → S idx = length (MainWindow.entries w) →
     MainWindow.list_row w' = Some (idx - 1)
     ∧ MainWindow.editor_current w' = MainWindow.entries w !! (idx - 1))
  ∧ (S idx < length (MainWindow.entries w) →
     MainWindow.list_row w' = Some idx
     ∧ MainWindow.editor_current w' = MainWindow.entries w !! S idx).
Proof.
  intros Hrow Hidx. rewrite (delete_type_spec w idx Hrow Hidx). cbn [snd].
  pose proof (length_delete (MainWindow.entries w) idx
                (lookup_lt_is_Some_2 _ _ Hidx)) as Hlen.
  cbv zeta. split_and!.
  - intros H1. destruct (delete idx (MainWindow.entries w)) as [|e0 es']; [done|].
    simpl in Hlen. lia.
  - intros Hmany Hlast.
    destruct (delete idx (MainWindow.entries w)) as [|e0 es'] eqn:Hdel;
      [simpl in Hlen; lia|].
    cbn [MainWindow.list_row MainWindow.editor_current].
    replace (Nat.min idx (length (e0 :: es') - 1)) with (idx - 1) by lia.
    split; [done|]. cbn [mbind option_bind]. rewrite <-Hdel.
    by rewrite list_lookup_delete_lt by lia.
  - intros Hmid.
    destruct (delete idx (MainWindow.entries w)) as [|e0 es'] eqn:Hdel;
      [simpl in Hlen; lia|].
    cbn [MainWindow.list_row MainWindow.editor_current].
    replace (Nat.min idx (length (e0 :: es') - 1)) with idx by lia.
    split; [done|]. cbn [mbind option_bind]. rewrite <-Hdel.
    by rewrite list_lookup_delete_ge by lia.
Qed.

Lemma delete_type_moves_selection_witness :
  let w := MainWindow.mk [sample_entry; renamed_entry] ["weapons"] None (Some 1)
             (Some renamed_entry) in
  MainWindow.list_row (MainWindow.delete_type w).2 = Some 0
  ∧ MainWindow.editor_current (MainWindow.delete_type w).2 = Some sample_entry.
Proof.
  cbv zeta.
  destruct (delete_type_moves_selection
              (MainWindow.mk [sample_entry; renamed_entry] ["weapons"] None
                 (Some 1) (Some renamed_entry)) 1)
    as (_ & Hlast & _).
  - reflexivity.
  - simpl. lia.
  - apply Hlast; simpl; lia.
Defined.

End Deleting.

Section SavingMore.

Lemma first_named_snoc_from (n : string) (es : list TypeEntry.t) (e : TypeEntry.t)
    (s : nat) :
  Forall (λ x, TypeEntry.name x ≠ n) es →
  TypeEntry.name e = n →
  fst <$> head (List.filter (λ ie : nat * TypeEntry.t, String.eqb (TypeEntry.name ie.2) n)
                  (zip (seq s (length (es ++ [e]))) (es ++ [e])))
  = Some (s + length es).
Proof.
  intros Hes He. revert s. induction Hes as [|x es Hx _ IH]; intros s.
  - simpl. rewrite He, String.eqb_refl. simpl. f_equal. lia.
  - cbn [app length seq zip zip_with List.filter snd].
    destruct (String.eqb_spec (TypeEntry.name x) n) as [Heq|_]; [by destruct Hx|].
    rewrite IH. f_equal. simpl. lia.
Qed.

Lemma first_named_snoc (n : string) (es : list TypeEntry.t) (e : TypeEntry.t) :
  Forall (λ x, TypeEntry.name x ≠ n) es →
  TypeEntry.name e = n →
  MainWindow.first_named n (es ++ [e]) = Some (length es).
Proof.
  intros Hes He. unfold MainWindow.first_named, MainWindow.enumerate.
  by rewrite (first_named_snoc_from n es e 0 Hes He).
Qed.

Lemma existsb_name_false (n : string) (es : list TypeEntry.t) :
  existsb (λ e, String.eqb (TypeEntry.name e) n) es = false
  ↔ Forall (λ x, TypeEntry.name x ≠ n) es.
Proof.
  induction es as [|x es IH]; simpl.
  - split; [constructor|done].
  - rewrite orb_false_iff, IH, Forall_cons.
    destruct (String.eqb_spec (TypeEntry.name x) n) as [Heq|Hne].
    + split; [by intros [? _]|]. by intros [? _].
    + split; [by intros [_ ?]|]. by intros [_ ?].
Qed.

Lemma save_add_spec (w : MainWindow.t) (entry : TypeEntry.t) :
  MainWindow.list_row w = None ∨ MainWindow.editor_current w = None →
  Forall (λ x, TypeEntry.name x ≠ TypeEntry.name entry) (MainWindow.entries w) →
  MainWindow.save_selected_changes (Some entry) w
  = (MainWindow.Returned,
     MainWindow.mk (MainWindow.entries w ++ [entry])
       (pool_with entry (MainWindow.category_pool w)) (MainWindow.current_path w)
       (Some (length (MainWindow.entries w))) (Some entry)).
Proof.
  intros Hsel Hnew. unfold MainWindow.save_selected_changes.
  rewrite (proj2 (existsb_name_false _ _) Hnew).
  assert (MainWindow.after_save entry
            (MainWindow.set_entries w (MainWindow.entries w ++ [entry]))
          = MainWindow.mk (MainWindow.entries w ++ [entry])
              (pool_with entry (MainWindow.category_pool w))
              (MainWindow.current_path w)
              (Some (length (MainWindow.entries w))) (Some entry)) as ->.
  { unfold MainWindow.after_save.
    set (w1 := match TypeEntry.category entry with
               | Some c => _ | None => _ end).
    assert (MainWindow.entries w1 = MainWindow.entries w ++ [entry]
            ∧ MainWindow.category_pool w1
              = pool_with entry (MainWindow.category_pool w)
            ∧ MainWindow.current_path w1 = MainWindow.current_path w)
      as (Hes & Hpool & Hpath).
    { unfold w1, pool_with. destruct (TypeEntry.category entry) as [c|]; [|done].
      cbn [MainWindow.set_entries MainWindow.category_pool].
      by destruct (Py.truthy c && negb (bool_decide (c ∈ MainWindow.category_pool w))). }
    assert (MainWindow.entries (MainWindow.refresh_list w1)
            = MainWindow.entries w ++ [entry]) as ->.
    { unfold MainWindow.refresh_list. by rewrite (proj1 (setCurrentRow_keeps _ _)). }
    rewrite (first_named_snoc _ _ _ Hnew eq_refl).
    rewrite (refresh_then_select _ entry w1).
    - by rewrite Hes, Hpool, Hpath.
    - rewrite Hes. rewrite lookup_app_r by lia. by rewrite Nat.sub_diag. }
  destruct Hsel as [-> | ->]; [done|]. by destruct (MainWindow.list_row w).
Qed.

(** X7: with nothing selected, saving a record under a name no record has
    appends it behind all others, selects its row and loads it in the
    editor.  The category pool is the old one, followed by the record's
    category when that is non-empty and was not in the pool. *)
Theorem save_new_name_appends_and_selects (w : MainWindow.t) (entry : TypeEntry.t) :
  MainWindow.list_row w = None ∨ MainWindow.editor_current w = None →
  (∀ e, e ∈ MainWindow.entries w → TypeEntry.name e ≠ TypeEntry.name entry) →
  ∃ w' pool',
    MainWindow.save_selected_changes (Some entry) w = (MainWindow.Returned, w')
    ∧ MainWindow.entries w' = MainWindow.entries w ++ [entry]
    ∧ MainWindow.list_row w' = Some (length (MainWindow.entries w))
    ∧ MainWindow.editor_current w' = Some entry
    ∧ MainWindow.category_pool w' = MainWindow.category_pool w ++ pool'
    ∧ (∀ c, c ∈ pool' ↔ TypeEntry.category entry = Some c ∧ c ≠ ""
                         ∧ c ∉ MainWindow.category_pool w)
    ∧ length pool' ≤ 1.
Proof.
  intros Hsel Hnew. apply Forall_forall in Hnew.
  rewrite (save_add_spec w entry Hsel Hnew).
  assert (∃ pool',
            pool_with entry (MainWindow.category_pool w)
            = MainWindow.category_pool w ++ pool'
            ∧ (∀ c, c ∈ pool' ↔ TypeEntry.category entry = Some c ∧ c ≠ ""
                                 ∧ c ∉ MainWindow.category_pool w)
            ∧ length pool' ≤ 1) as (pool' & Hpool & Hmem & Hlen).
  { unfold pool_with, Py.truthy.
    destruct (TypeEntry.category entry) as [c|].
    - destruct (String.eqb_spec c "") as [->|Hne]; cbn [negb andb].
      + exists []. rewrite app_nil_r. split; [done|]. split; [|simpl; lia].
        intros c. split; [by intros ?%elem_of_nil|]. by intros ([= <-] & ? & _).
      + destruct (bool_decide_reflect (c ∈ MainWindow.category_pool w)) as [Hin|Hout];
          cbn [negb].
        * exists []. rewrite app_nil_r. split; [done|]. split; [|simpl; lia].
          intros c'. split; [by intros ?%elem_of_nil|]. by intros ([= <-] & _ & ?).
        * exists [c]. split; [done|]. split; [|simpl; lia].
          intros c'. rewrite list_elem_of_singleton. split.
          -- by intros ->.
          -- by intros ([= <-] & _).
    - exists []. rewrite app_nil_r. split; [done|]. split; [|simpl; lia].
      intros c. split; [by intros ?%elem_of_nil|]. by intros ([=] & _). }
  eexists _, pool'. split; [reflexivity|].
  cbn [MainWindow.entries MainWindow.list_row MainWindow.editor_current
    MainWindow.category_pool].
  by split_and!.
Qed.

Lemma save_new_name_appends_and_selects_witness :
  ∃ w', MainWindow.save_selected_changes (Some renamed_entry) window_without_selection
        = (MainWindow.Returned, w')
        ∧ MainWindow.entries w' = [sample_entry; renamed_entry]
        ∧ MainWindow.list_row w' = Some 1
        ∧ MainWindow.editor_current w' = Some renamed_entry.
Proof.
  destruct (save_new_name_appends_and_selects window_without_selection renamed_entry)
    as (w' & pool' & Hrun & Hes & Hrow & Hed & _).
  - left. reflexivity.
  - intros e He. simpl in He. apply list_elem_of_singleton in He as ->.
    simpl. discriminate.
  - exists w'. split_and!; done.
Defined.

(** X8: [save_selected_changes] keeps the names of the collection unique:
    whatever it is handed and whatever is selected, if no two records shared
    a name before, none do afterwards. *)
Theorem save_keeps_names_unique (collected : option TypeEntry.t) (w : MainWindow.t) :
  NoDup (names (MainWindow.entries w)) →
  NoDup (names (MainWindow.entries (MainWindow.save_selected_changes collected w).2)).
Proof.
  intros Huniq. unfold MainWindow.save_selected_changes.
  destruct collected as [entry|]; [|done].
  assert (∀ o, NoDup (names (MainWindow.entries
            (if existsb (λ e, String.eqb (TypeEntry.name e) (TypeEntry.name entry))
                        (MainWindow.entries w)
             then (o, w)
             else (MainWindow.Returned,
                   MainWindow.after_save entry
                     (MainWindow.set_entries w (MainWindow.entries w ++ [entry])))).2)))
    as Hadd.
  { intros o. destruct (existsb _ _) eqn:Hdup; [done|].
    apply existsb_name_false in Hdup. cbn [snd].
    assert (∀ w0, MainWindow.entries (MainWindow.after_save entry w0)
                  = MainWindow.entries w0) as ->.
    { intros w0. unfold MainWindow.after_save, MainWindow.refresh_list.
      repeat case_match; rewrite ?(proj1 (setCurrentRow_keeps _ _)); done. }
    cbn [MainWindow.set_entries MainWindow.entries]. unfold names.
    rewrite fmap_app. apply NoDup_app. split; [done|]. split.
    - intros n Hn Hn2. cbn [fmap list_fmap] in Hn2.
      apply list_elem_of_singleton in Hn2 as ->.
      apply list_elem_of_fmap in Hn as (e & He & Hin).
      by apply (proj1 (Forall_forall _ _) Hdup e Hin).
    - apply NoDup_singleton. }
  destruct (MainWindow.list_row w) as [idx|]; [|apply Hadd].
  destruct (MainWindow.editor_current w); [|apply Hadd].
  destruct (existsb _ (List.filter _ _)); exact Huniq.
Qed.

Lemma save_keeps_names_unique_witness :
  NoDup (names (MainWindow.entries
    (MainWindow.save_selected_changes (Some renamed_entry) window_without_selection).2)).
Proof.
  apply (save_keeps_names_unique (Some renamed_entry) window_without_selection).
  apply (bool_decide_unpack _). vm_compute. exact I.
Defined.

End SavingMore.

Section DuplicatingMore.

Lemma list_insert_at_lookup {A : Type} (i : nat) (x : A) (xs : list A) :
  i ≤ length xs → MainWindow.list_insert_at i x xs !! i = Some x.
Proof.
  intros Hi. unfold MainWindow.list_insert_at.
  rewrite lookup_app_r by (rewrite length_take; lia).
  rewrite length_take, Nat.min_l by lia. by rewrite Nat.sub_diag.
Qed.

Lemma setCurrentRow_other (i : nat) (e : TypeEntry.t) (w : MainWindow.t) :
  MainWindow.entries w !! i = Some e →
  MainWindow.list_row w ≠ Some i →
  MainWindow.setCurrentRow (Some i) w
  = MainWindow.mk (MainWindow.entries w) (MainWindow.category_pool w)
      (MainWindow.current_path w) (Some i) (Some e).
Proof.
  intros He Hrow. destruct w as [es p cp r ed]. cbn in *.
  unfold MainWindow.setCurrentRow. cbn [MainWindow.entries MainWindow.list_row].
  assert (bool_decide (i < length es) = true) as ->
    by (apply bool_decide_eq_true_2; by eapply lookup_lt_Some).
  rewrite bool_decide_false by done.
  unfold MainWindow.on_select. cbn [MainWindow.set_list_row MainWindow.entries].
  by rewrite He.
Qed.

Lemma duplicate_type_spec (w : MainWindow.t) (i : nat) (src : TypeEntry.t) :
  MainWindow.list_row w = Some i →
  MainWindow.entries w !! i = Some src →
  MainWindow.duplicate_type w
  = (MainWindow.Returned,
     MainWindow.mk
       (take (S i) (MainWindow.entries w)
        ++ MainWindow.copy_of src :: drop (S i) (MainWindow.entries w))
       (MainWindow.category_pool w) (MainWindow.current_path w)
       (Some (S i)) (Some (MainWindow.copy_of src))).
Proof.
  intros Hrow Hsrc. unfold MainWindow.duplicate_type. rewrite Hrow, Hsrc.
  f_equal. rewrite (refresh_then_select _ (MainWindow.copy_of src)).
  - reflexivity.
  - cbn [MainWindow.set_entries MainWindow.entries].
    apply list_insert_at_lookup. apply lookup_lt_Some in Hsrc. lia.
Qed.

(** X9: [duplicate_type] leaves the selection on the copy, which is also
    what the editor then shows; the category pool and the path are as they
    were. *)
Theorem duplicate_type_selects_copy (w : MainWindow.t) (i : nat) (src : TypeEntry.t) :
  MainWindow.list_row w = Some i →
  MainWindow.entries w !! i = Some src →
  let w' := (MainWindow.duplicate_type w).2 in
  MainWindow.list_row w' = Some (S i)
  ∧ MainWindow.entries w' !! S i = Some (MainWindow.copy_of src)
  ∧ MainWindow.editor_current w' = Some (MainWindow.copy_of src)
  ∧ MainWindow.category_pool w' = MainWindow.category_pool w
  ∧ MainWindow.current_path w' = MainWindow.current_path w.
Proof.
  intros Hrow Hsrc. rewrite (duplicate_type_spec w i src Hrow Hsrc). cbn.
  split_and!; try done.
  apply (list_insert_at_lookup (S i)). apply lookup_lt_Some in Hsrc. lia.
Qed.

Lemma duplicate_type_selects_copy_witness :
  MainWindow.list_row (MainWindow.duplicate_type window_with_selection).2 = Some 1
  ∧ MainWindow.editor_current (MainWindow.duplicate_type window_with_selection).2
    = Some (MainWindow.copy_of sample_entry).
Proof.
  destruct (duplicate_type_selects_copy window_with_selection 0 sample_entry)
    as (Hrow & _ & Hed & _).
  - reflexivity.
  - reflexivity.
  - split; [exact Hrow|exact Hed].
Defined.

(** X10: [duplicate_type] does not look at the names that are there.
    Duplicating a record, selecting it again and duplicating it once more
    leaves two records under the same name behind it, so the names of the
    collection are no longer unique. *)
Theorem duplicate_twice_repeats_name (w : MainWindow.t) (i : nat) (src : TypeEntry.t) :
  MainWindow.list_row w = Some i →
  MainWindow.entries w !! i = Some src →
  let w1 := (MainWindow.duplicate_type w).2 in
  let w2 := (MainWindow.duplicate_type (MainWindow.setCurrentRow (Some i) w1)).2 in
  MainWindow.entries w2
  = take (S i) (MainWindow.entries w)
    ++ MainWindow.copy_of src :: MainWindow.copy_of src
       :: drop (S i) (MainWindow.entries w)
  ∧ ¬ NoDup (names (MainWindow.entries w2)).
Proof.
  intros Hrow Hsrc. cbv zeta.
  rewrite (duplicate_type_spec w i src Hrow Hsrc). cbn [snd].
  pose proof (lookup_lt_Some _ _ _ Hsrc) as Hi.
  set (es1 := take (S i) (MainWindow.entries w)
              ++ MainWindow.copy_of src :: drop (S i) (MainWindow.entries w)).
  set (w1 := MainWindow.mk es1 _ _ _ _).
  assert (es1 !! i = Some src) as Hsrc1.
  { unfold es1. rewrite lookup_app_l by (rewrite length_take; lia).
    by rewrite lookup_take_lt by lia. }
  rewrite (setCurrentRow_other i src w1 Hsrc1) by (cbn; intros [= ?]; lia).
  cbn [w1 MainWindow.entries MainWindow.category_pool MainWindow.current_path].
  rewrite (duplicate_type_spec
             (MainWindow.mk es1 (MainWindow.category_pool w)
                (MainWindow.current_path w) (Some i) (Some src))
             i src eq_refl Hsrc1).
  cbn [snd MainWindow.entries].
  assert (take (S i) es1 = take (S i) (MainWindow.entries w)) as ->.
  { unfold es1. rewrite take_app_le by (rewrite length_take; lia).
    rewrite take_take. f_equal. lia. }
  assert (drop (S i) es1
          = MainWindow.copy_of src :: drop (S i) (MainWindow.entries w)) as ->.
  { unfold es1. rewrite drop_app_length'; [done|]. rewrite length_take. lia. }
  split; [done|].
  unfold names. rewrite fmap_app, !fmap_cons.
  intros [_ [_ Hnd]]%NoDup_app.
  apply NoDup_cons in Hnd as [Hnotin _]. apply Hnotin. apply list_elem_of_here.
Qed.

Lemma duplicate_twice_repeats_name_witness :
  names (MainWindow.entries
    (MainWindow.duplicate_type
       (MainWindow.setCurrentRow (Some 0)
          (MainWindow.duplicate_type window_with_selection).2)).2)
  = ["AKM"; "AKM_Copy"; "AKM_Copy"].
Proof.
  destruct (duplicate_twice_repeats_name window_with_selection 0 sample_entry)
    as [Hes _].
  - reflexivity.
  - reflexivity.
  - cbv zeta in Hes. rewrite Hes. reflexivity.
Defined.

End DuplicatingMore.

Section NewList.

(** X11: after [new_type] a save never reaches the assignment of the update
    branch.  The collection is as it was; saving a name that is there is the
    duplicate warning, and saving any other name appends the record. *)
Theorem new_type_then_save_adds (w : MainWindow.t) (entry : TypeEntry.t) :
  MainWindow.entries (MainWindow.new_type w) = MainWindow.entries w
  ∧ MainWindow.category_pool (MainWindow.new_type w) = MainWindow.category_pool w
  ∧ ((∃ e, e ∈ MainWindow.entries w ∧ TypeEntry.name e = TypeEntry.name entry) →
     MainWindow.save_selected_changes (Some entry) (MainWindow.new_type w)
     = (MainWindow.Warned "Duplicate", MainWindow.new_type w))
  ∧ ((∀ e, e ∈ MainWindow.entries w → TypeEntry.name e ≠ TypeEntry.name entry) →
     (MainWindow.save_selected_changes (Some entry) (MainWindow.new_type w)).1
     = MainWindow.Returned
     ∧ MainWindow.entries
         (MainWindow.save_selected_changes (Some entry) (MainWindow.new_type w)).2
       = MainWindow.entries w ++ [entry]).
Proof.
  assert (MainWindow.entries (MainWindow.new_type w) = MainWindow.entries w) as Hes.
  { unfold MainWindow.new_type. cbn. apply setCurrentRow_keeps. }
  assert (MainWindow.editor_current (MainWindow.new_type w) = None) as Hed
    by reflexivity.
  split; [done|]. split.
  { unfold MainWindow.new_type. cbn. apply setCurrentRow_keeps. }
  revert Hes Hed. generalize (MainWindow.new_type w). intros w0 Hes Hed.
  split.
  - intros (e & Hin & Hname). unfold MainWindow.save_selected_changes.
    rewrite Hed, Hes.
    assert (existsb (λ e, String.eqb (TypeEntry.name e) (TypeEntry.name entry))
                    (MainWindow.entries w) = true) as ->.
    { apply existsb_exists. exists e. split; [by apply list_elem_of_In|].
      by apply String.eqb_eq. }
    by destruct (MainWindow.list_row _).
  - intros Hnew. apply Forall_forall in Hnew. rewrite <-Hes in Hnew.
    rewrite (save_add_spec _ entry (or_intror Hed) Hnew). cbn. by rewrite Hes.
Qed.

(** X12: [action_new], once confirmed, leaves the window as [__init__] made
    it, whatever it held: no records, no categories, no path, nothing
    selected.  Declined, it leaves the window as it is. *)
Theorem action_new_resets (w : MainWindow.t) :
  MainWindow.action_new true w = initial_window
  ∧ MainWindow.action_new false w = w.
Proof.
  split; [|done]. unfold MainWindow.action_new, initial_window.
  cbv zeta. unfold MainWindow.refresh_list.
  set (w1 := MainWindow.set_category_pool _ _).
  destruct (setCurrentRow_keeps None w1) as [Hes Hpool].
  destruct (setCurrentRow_none w1) as [Hrow _].
  destruct (MainWindow.setCurrentRow None w1) as [es p cp r ed].
  simpl in *. by subst.
Qed.

End NewList.

Section ImportExport.

Lemma action_import_state (w : MainWindow.t) (path : string)
    (parsed : Py.result ET.Element) (es : list TypeEntry.t) (cats : gset string) :
  path ≠ "" →
  MainWindow.read_document parsed = Py.ret (es, cats) →
  (MainWindow.action_import path parsed w).1 = MainWindow.Returned
  ∧ MainWindow.entries (MainWindow.action_import path parsed w).2 = es
  ∧ MainWindow.category_pool (MainWindow.action_import path parsed w).2
    = MainWindow.sorted (list_to_set CATEGORY_PRESETS ∪ cats)
  ∧ MainWindow.current_path (MainWindow.action_import path parsed w).2 = Some path
  ∧ MainWindow.list_row (MainWindow.action_import path parsed w).2
    = match es with [] => None | _ :: _ => Some 0 end
  ∧ (es ≠ [] →
     MainWindow.editor_current (MainWindow.action_import path parsed w).2 = head es).
Proof.
  intros Hpath Hdoc. unfold MainWindow.action_import, Py.truthy.
  destruct (String.eqb_spec path ""); [done|]. cbn [negb].
  rewrite Hdoc. unfold Py.ret. cbn [fst snd].
  set (w3 := MainWindow.set_current_path _ _).
  assert (MainWindow.entries w3 = es) as H1.
  { unfold w3, MainWindow.refresh_list, MainWindow.set_current_path.
    cbn [MainWindow.entries]. by rewrite (proj1 (setCurrentRow_keeps _ _)). }
  assert (MainWindow.category_pool w3
          = MainWindow.sorted (list_to_set CATEGORY_PRESETS ∪ cats)) as H2.
  { unfold w3, MainWindow.refresh_list, MainWindow.set_current_path.
    cbn [MainWindow.category_pool]. by rewrite (proj2 (setCurrentRow_keeps _ _)). }
  assert (MainWindow.current_path w3 = Some path) as H3 by reflexivity.
  assert (MainWindow.list_row w3 = None) as H4.
  { unfold w3, MainWindow.refresh_list, MainWindow.set_current_path.
    cbn [MainWindow.list_row]. apply setCurrentRow_none. }
  rewrite H1. destruct es as [|e0 es'].
  - split_and!; done.
  - rewrite (setCurrentRow_other 0 e0 w3) by (by rewrite ?H1, ?H4).
    rewrite H1, H2, H3. split_and!; done.
Qed.

(** X13: a successful import holds one record for every [type] child of the
    root, in document order; the path is remembered, and the first record is
    selected and loaded in the editor.  A document without [type] children
    leaves an empty collection with nothing selected. *)
Theorem import_selects_first (w : MainWindow.t) (path : string) (root : ET.Element) :
  path ≠ "" →
  ET.tag root = "types" →
  let w' := (MainWindow.action_import path (Py.ret root) w).2 in
  Forall2 (λ el e, TypeEntry.from_xml el = Py.ret e)
          (ET.findall root "type") (MainWindow.entries w')
  ∧ length (MainWindow.entries w') = length (ET.findall root "type")
  ∧ MainWindow.current_path w' = Some path
  ∧ MainWindow.list_row w'
    = match ET.findall root "type" with [] => None | _ :: _ => Some 0 end
  ∧ (ET.findall root "type" ≠ [] →
     MainWindow.editor_current w' = head (MainWindow.entries w')).
Proof.
  intros Hpath Hroot.
  destruct (import_loop_spec (ET.findall root "type") ([], ∅)) as (es & Hloop & Hes).
  destruct (action_import_state w path (Py.ret root) es (categories_of es) Hpath)
    as (_ & Hent & _ & Hcp & Hrow & Hed).
  { unfold MainWindow.read_document. cbn [Py.bind Py.ret]. rewrite Hroot.
    cbn [String.eqb Ascii.eqb Bool.eqb negb]. rewrite Hloop. cbn [fst snd app].
    by rewrite (right_id_L ∅ (∪)). }
  cbv zeta. rewrite Hent, Hcp, Hrow.
  pose proof (Forall2_length _ _ _ Hes) as Hlen.
  split_and!; try done.
  - destruct Hes; done.
  - intros Hne. apply Hed. intros ->.
    by destruct (ET.findall root "type").
Qed.

Lemma import_selects_first_witness :
  let w' := (MainWindow.action_import "types.xml" (Py.ret first_document)
               window_with_selection).2 in
  names (MainWindow.entries w') = ["AKM"; "Amulet"]
  ∧ MainWindow.current_path w' = Some "types.xml"
  ∧ MainWindow.list_row w' = Some 0.
Proof.
  cbv zeta.
  destruct (import_selects_first window_with_selection "types.xml" first_document)
    as (_ & _ & Hcp & Hrow & _).
  - discriminate.
  - reflexivity.
  - split; [vm_compute; reflexivity|]. split; [exact Hcp|exact Hrow].
Defined.

Lemma export_root_from (es : list TypeEntry.t) (root : ET.Element) :
  ET.tag (foldl (λ r e, ET.append r (TypeEntry.to_xml e)) root es) = ET.tag root
  ∧ ET.children (foldl (λ r e, ET.append r (TypeEntry.to_xml e)) root es)
    = ET.children root ++ (TypeEntry.to_xml <$> es).
Proof.
  revert root. induction es as [|e es IH]; intros root; simpl.
  - by rewrite app_nil_r.
  - destruct (IH (ET.append root (TypeEntry.to_xml e))) as [-> ->].
    simpl. by rewrite <-app_assoc.
Qed.

Lemma export_root_spec (es : list TypeEntry.t) :
  ET.tag (MainWindow.export_root es) = "types"
  ∧ ET.findall (MainWindow.export_root es) "type" = TypeEntry.to_xml <$> es.
Proof.
  unfold MainWindow.export_root, ET.findall.
  destruct (export_root_from es (ET.new "types" ∅)) as [-> ->].
  split; [done|]. cbn [ET.new ET.children app].
  apply filter_tag_same. apply Forall_fmap, Forall_forall.
  intros e _. apply to_xml_root.
Qed.

Lemma parsed_back (es es' : list TypeEntry.t) :
  Forall well_formed es →
  Forall2 (λ el e, TypeEntry.from_xml el = Py.ret e) (TypeEntry.to_xml <$> es) es' →
  es' = es.
Proof.
  intros Hwf. revert es'. induction Hwf as [|e es He _ IH]; intros es' Hes'.
  - by inversion Hes'.
  - rewrite fmap_cons in Hes'. inversion Hes' as [|? e' ? es'' Hhead Htail]; subst.
    rewrite (from_xml_to_xml_well_formed e He) in Hhead.
    injection Hhead as <-. f_equal. by apply IH.
Qed.

(** X14: importing the tree that [action_export] builds from a collection of
    well-formed records gives the collection back, record for record and in
    order, with the category pool of the baseline and the collection's own
    categories. *)
Theorem export_then_import (w : MainWindow.t) (path : string) (es : list TypeEntry.t) :
  path ≠ "" →
  Forall well_formed es →
  MainWindow.read_document (Py.ret (MainWindow.export_root es))
  = Py.ret (es, categories_of es)
  ∧ (MainWindow.action_import path (Py.ret (MainWindow.export_root es)) w).1
    = MainWindow.Returned
  ∧ MainWindow.entries
      (MainWindow.action_import path (Py.ret (MainWindow.export_root es)) w).2 = es
  ∧ MainWindow.category_pool
      (MainWindow.action_import path (Py.ret (MainWindow.export_root es)) w).2
    = MainWindow.sorted (list_to_set CATEGORY_PRESETS ∪ categories_of es).
Proof.
  intros Hpath Hwf.
  destruct (export_root_spec es) as [Htag Hall].
  assert (MainWindow.read_document (Py.ret (MainWindow.export_root es))
          = Py.ret (es, categories_of es)) as Hdoc.
  { unfold MainWindow.read_document. cbn [Py.bind Py.ret]. rewrite Htag.
    cbn [String.eqb Ascii.eqb Bool.eqb negb]. rewrite Hall.
    destruct (import_loop_spec (TypeEntry.to_xml <$> es) ([], ∅))
      as (es' & -> & Hes').
    rewrite (parsed_back es es' Hwf Hes'). cbn [fst snd app].
    by rewrite (right_id_L ∅ (∪)). }
  split; [done|].
  destruct (action_import_state w path _ es (categories_of es) Hpath Hdoc)
    as (Hrun & Hent & Hpool & _).
  done.
Qed.

Lemma export_then_import_witness :
  MainWindow.entries
    (MainWindow.action_import "out.xml"
       (Py.ret (MainWindow.export_root [sample_entry; sample_entry_all_false]))
       initial_window).2
  = [sample_entry; sample_entry_all_false].
Proof.
  apply (export_then_import initial_window "out.xml"
           [sample_entry; sample_entry_all_false]).
  - discriminate.
  - repeat constructor; try (vm_compute; reflexivity); try discriminate.
Defined.

End ImportExport.

Section Presets.

(** One turn of the loop of [action_load_presets], on the dict. *)
Lemma load_presets_loop_spec (elems : list ET.Element) (db : gmap string TypeEntry.t)
    (count : nat) :
  ∃ es,
    Forall2 (λ el e, TypeEntry.from_xml el = Py.ret e) elems es
    ∧ MainWindow.load_presets_loop elems db count
      = (None, foldl store_preset db es,
         count + length (List.filter (λ e, Py.truthy (TypeEntry.name e)) es)).
Proof.
  revert db count. induction elems as [|el elems IH]; intros db count.
  - exists []. split; [constructor|]. simpl. by rewrite Nat.add_0_r.
  - assert (∃ e, TypeEntry.from_xml el = inr e) as [e Hel].
    { destruct (from_xml_spec el) as (fl & Hel & _). by eexists. }
    cbn [MainWindow.load_presets_loop]. rewrite Hel.
    destruct (Py.truthy (TypeEntry.name e)) eqn:Hname.
    + destruct (IH (<[TypeEntry.name e := e]> db) (S count)) as (es & Hes & ->).
      exists (e :: es). split; [by constructor|].
      assert (store_preset db e = <[TypeEntry.name e := e]> db) as Hstore
        by (unfold store_preset; by rewrite Hname).
      cbn [foldl List.filter]. rewrite Hstore, Hname. cbn [length].
      f_equal. lia.
    + destruct (IH db count) as (es & Hes & ->).
      exists (e :: es). split; [by constructor|].
      assert (store_preset db e = db) as Hstore
        by (unfold store_preset; by rewrite Hname).
      cbn [foldl List.filter]. by rewrite Hstore, Hname.
Qed.

Lemma store_presets_lookup (es : list TypeEntry.t) (db : gmap string TypeEntry.t)
    (k : string) :
  foldl store_preset db es !! k
  = if Py.truthy k
    then match last (List.filter (λ e, String.eqb (TypeEntry.name e) k) es) with
         | Some e => Some e
         | None => db !! k
         end
    else db !! k.
Proof.
  revert db. induction es as [|e es IH]; intros db.
  - simpl. by destruct (Py.truthy k).
  - cbn [foldl List.filter]. rewrite IH. clear IH.
    destruct (Py.truthy k) eqn:Hk.
    + destruct (String.eqb_spec (TypeEntry.name e) k) as [Heq|Hne].
      * destruct (List.filter _ es) as [|e' l] eqn:Hf.
        -- simpl. unfold store_preset. rewrite Heq, Hk. apply lookup_insert_eq.
        -- change (last (e :: e' :: l)) with (last (e' :: l)).
           destruct (last (e' :: l)) eqn:Hl; [done|]. by apply last_None in Hl.
      * destruct (last (List.filter _ es)); [done|].
        unfold store_preset. destruct (Py.truthy (TypeEntry.name e)); [|done].
        by rewrite lookup_insert_ne.
    + unfold store_preset. destruct (Py.truthy (TypeEntry.name e)) eqn:He; [|done].
      rewrite lookup_insert_ne; [done|]. intros Heq. congruence.
Qed.

(** X15: [action_load_presets] takes the [type] children of any root (the
    root's tag is not looked at).  Afterwards a non-empty name is bound to
    the last parsed record of that name, or is as before when there is none;
    records without a name are not stored.  The count that is reported is the
    number of named records, also counting those a later one replaced. *)
Theorem load_presets_last_wins (path : string) (root : ET.Element)
    (db : gmap string TypeEntry.t) :
  path ≠ "" →
  ∃ es db',
    Forall2 (λ el e, TypeEntry.from_xml el = Py.ret e) (ET.findall root "type") es
    ∧ MainWindow.action_load_presets path (Py.ret root) db
      = (MainWindow.Returned, db',
         Some (length (List.filter (λ e, Py.truthy (TypeEntry.name e)) es)))
    ∧ (∀ k, k ≠ "" →
            db' !! k
            = match last (List.filter (λ e, String.eqb (TypeEntry.name e) k) es) with
              | Some e => Some e
              | None => db !! k
              end)
    ∧ db' !! "" = db !! "".
Proof.
  intros Hpath.
  destruct (load_presets_loop_spec (ET.findall root "type") db 0) as (es & Hes & Hloop).
  exists es, (foldl store_preset db es). split; [done|]. split.
  - unfold MainWindow.action_load_presets, Py.truthy.
    destruct (String.eqb_spec path ""); [done|]. cbn [negb]. unfold Py.ret.
    by rewrite Hloop.
  - split.
    + intros k Hk. rewrite store_presets_lookup. unfold Py.truthy.
      by destruct (String.eqb_spec k "").
    + by rewrite store_presets_lookup.
Qed.

Lemma load_presets_last_wins_witness :
  ∃ es db',
    Forall2 (λ el e, TypeEntry.from_xml el = Py.ret e)
            (ET.findall preset_document "type") es
    ∧ MainWindow.action_load_presets "vanilla.xml" (Py.ret preset_document) ∅
      = (MainWindow.Returned, db',
         Some (length (List.filter (λ e, Py.truthy (TypeEntry.name e)) es)))
    ∧ (∀ k, k ≠ "" →
            db' !! k
            = match last (List.filter (λ e, String.eqb (TypeEntry.name e) k) es) with
              | Some e => Some e
              | None => (∅ : gmap string TypeEntry.t) !! k
              end)
    ∧ db' !! "" = (∅ : gmap string TypeEntry.t) !! "".
Proof.
  apply (load_presets_last_wins "vanilla.xml" preset_document ∅). discriminate.
Defined.

(** The sample run: two of the three records are named, the later "AKM"
    replaces the earlier one, and the count is 2. *)
Example load_presets_sample :
  ∃ db', MainWindow.action_load_presets "vanilla.xml" (Py.ret preset_document) ∅
         = (MainWindow.Returned, db', Some 2)
         ∧ TypeEntry.category <$> db' !! "AKM" = Some (Some "relics")
         ∧ dom db' = {[ "AKM" ]}.
Proof. eexists. split; [vm_compute; reflexivity|]. split; vm_compute; reflexivity. Qed.

End Presets.

(** * The editor widgets *)

Section Widgets.

Lemma fromkeys_from (acc xs : list string) :
  foldl (λ acc x, if bool_decide (x ∈ acc) then acc else acc ++ [x]) acc xs
  = acc ++ new_keys acc xs.
Proof.
  revert acc. induction xs as [|x xs IH]; intros acc; simpl.
  - by rewrite app_nil_r.
  - rewrite IH. destruct (bool_decide (x ∈ acc)); [done|].
    by rewrite <-app_assoc.
Qed.

Lemma elem_of_new_keys (seen xs : list string) (x : string) :
  x ∈ new_keys seen xs ↔ x ∈ xs ∧ x ∉ seen.
Proof.
  revert seen. induction xs as [|y xs IH]; intros seen; simpl.
  - rewrite elem_of_nil. split; [done|]. by intros [? _].
  - destruct (bool_decide_reflect (y ∈ seen)) as [Hin|Hout].
    + rewrite IH, elem_of_cons. split; [by intros [? ?]; auto|].
      intros [[->|?] ?]; [done|auto].
    + rewrite !elem_of_cons, IH, elem_of_app, list_elem_of_singleton. split.
      * intros [->|[? Hx]]; [auto|]. split; [auto|]. intros ?. apply Hx. auto.
      * intros [[->|?] Hx]; [auto|].
        destruct (decide (x = y)) as [->|Hne]; [auto|]. right. split; [done|].
        intros [?|?]; done.
Qed.

Lemma NoDup_new_keys (seen xs : list string) : NoDup (new_keys seen xs).
Proof.
  revert seen. induction xs as [|y xs IH]; intros seen; simpl; [constructor|].
  destruct (bool_decide (y ∈ seen)); [apply IH|].
  constructor; [|apply IH]. rewrite elem_of_new_keys, elem_of_app.
  intros [_ Hy]. apply Hy. right. apply list_elem_of_here.
Qed.

Lemma new_keys_sorted (seen xs : list string) :
  StronglySorted String.le xs → StronglySorted String.le (new_keys seen xs).
Proof.
  intros Hs. revert seen. induction Hs as [|y xs _ IH Hy]; intros seen; simpl;
    [constructor|].
  destruct (bool_decide (y ∈ seen)); [apply IH|].
  constructor; [apply IH|]. apply Forall_forall. intros x [Hx _]%elem_of_new_keys.
  by apply (proj1 (Forall_forall _ _) Hy).
Qed.

Lemma new_keys_app (seen xs ys : list string) :
  new_keys seen (xs ++ ys)
  = new_keys seen xs ++ new_keys (seen ++ new_keys seen xs) ys.
Proof.
  revert seen. induction xs as [|x xs IH]; intros seen; simpl.
  - by rewrite app_nil_r.
  - destruct (bool_decide (x ∈ seen)); [apply IH|].
    rewrite IH. simpl. by rewrite <-app_assoc.
Qed.

(** X16: the category combo box is given the eight baseline categories first,
    in their fixed order, and behind them the categories of the pool that
    are not baseline ones, in ascending order; no item comes twice. *)
Theorem set_category_options_order (categories : list string) :
  ∃ rest,
    TypeEditor.set_category_options categories = CATEGORY_PRESETS ++ rest
    ∧ NoDup (TypeEditor.set_category_options categories)
    ∧ StronglySorted String.le rest
    ∧ ∀ c, c ∈ rest ↔ c ∈ categories ∧ c ∉ CATEGORY_PRESETS.
Proof.
  exists (new_keys CATEGORY_PRESETS (MainWindow.sorted (list_to_set categories))).
  destruct (sorted_spec (list_to_set categories)) as (Hsorted & _ & Hmem).
  assert (TypeEditor.set_category_options categories
          = CATEGORY_PRESETS
            ++ new_keys CATEGORY_PRESETS (MainWindow.sorted (list_to_set categories)))
    as Heq.
  { unfold TypeEditor.set_category_options, TypeEditor.fromkeys.
    rewrite fromkeys_from, new_keys_app. cbn [app].
    by replace (new_keys [] CATEGORY_PRESETS) with CATEGORY_PRESETS
      by (vm_compute; reflexivity). }
  split; [done|]. split; [|split].
  - rewrite Heq. apply NoDup_app. split; [|split].
    + apply (bool_decide_unpack _). vm_compute. exact I.
    + intros c Hc [_ Hnot]%elem_of_new_keys. done.
    + apply NoDup_new_keys.
  - by apply new_keys_sorted.
  - intros c. rewrite elem_of_new_keys, Hmem, elem_of_list_to_set. done.
Qed.

(** X17: [_add_text] keeps the items of a list editor free of duplicates and
    of empty strings.  The old items stay in front in their order, the
    stripped text is among the items afterwards unless it is empty, and
    adding the same text again changes nothing. *)
Theorem add_text_keeps_items_clean (text : string) (items : list string) :
  NoDup items →
  Forall (λ x, x ≠ "") items →
  NoDup (ListEditor._add_text text items)
  ∧ Forall (λ x, x ≠ "") (ListEditor._add_text text items)
  ∧ items `prefix_of` ListEditor._add_text text items
  ∧ (Py.strip text ≠ "" → Py.strip text ∈ ListEditor._add_text text items)
  ∧ ListEditor._add_text text (ListEditor._add_text text items)
    = ListEditor._add_text text items.
Proof.
  intros Hnd Hne. unfold ListEditor._add_text, Py.truthy. cbv zeta.
  destruct (String.eqb_spec (Py.strip text) "") as [Hempty|Hfull]; cbn [negb].
  { split_and!; done. }
  destruct (bool_decide_reflect (Py.strip text ∈ items)) as [Hin|Hout].
  { rewrite bool_decide_true by done. split_and!; done. }
  rewrite bool_decide_true by (apply elem_of_app; right; apply list_elem_of_here).
  split_and!.
  - apply NoDup_app. split; [done|]. split; [|apply NoDup_singleton].
    intros x Hx ->%list_elem_of_singleton. done.
  - apply Forall_app. split; [done|]. by constructor.
  - by apply prefix_app_r.
  - intros _. apply elem_of_app. right. apply list_elem_of_here.
  - done.
Qed.

Lemma add_text_keeps_items_clean_witness :
  ListEditor._add_text " farm " ["coast"; "farm"] = ["coast"; "farm"]
  ∧ ListEditor._add_text " town " ["coast"; "farm"] = ["coast"; "farm"; "town"]
  ∧ NoDup (ListEditor._add_text " town " ["coast"; "farm"]).
Proof.
  split; [reflexivity|]. split; [reflexivity|].
  apply (add_text_keeps_items_clean " town " ["coast"; "farm"]).
  - apply (bool_decide_unpack _). vm_compute. exact I.
  - repeat constructor; discriminate.
Defined.

Lemma collected_flags (checks : gmap string bool) (k : string) :
  map_fold (λ k (checked : bool) fl, <[k := if checked then 1%Z else 0%Z]> fl)
           TypeEntry.default_flags checks !! k
  = match checks !! k with
    | Some b => Some (flag_value b)
    | None => TypeEntry.default_flags !! k
    end.
Proof.
  apply (map_fold_weak_ind
    (λ fl m, fl !! k = match m !! k with
                       | Some b => Some (flag_value b)
                       | None => TypeEntry.default_flags !! k
                       end)).
  - by rewrite lookup_empty.
  - intros i b m fl Hi IH. destruct (decide (i = k)) as [->|Hne].
    + by rewrite !lookup_insert_eq.
    + by rewrite !lookup_insert_ne.
Qed.

Lemma collect_entry_spec (f : TypeEditor.form) (e : TypeEntry.t) :
  dom (TypeEditor.flag_checks f) = FLAG_KEYS →
  TypeEditor.collect_entry f = Some e →
  TypeEntry.name e = Py.strip (TypeEditor.name_text f)
  ∧ TypeEntry.name e ≠ ""
  ∧ dom (TypeEntry.flags e) = FLAG_KEYS
  ∧ (∀ k, TypeEntry.flags e !! k = flag_value <$> TypeEditor.flag_checks f !! k)
  ∧ TypeEntry.category e ≠ Some ""
  ∧ TypeEntry.usages e = TypeEditor.usage_items f
  ∧ TypeEntry.values e = TypeEditor.value_items f
  ∧ TypeEntry.tags e = TypeEditor.tag_items f.
Proof.
  intros Hdom. unfold TypeEditor.collect_entry, Py.truthy. cbv zeta.
  destruct (String.eqb_spec (Py.strip (TypeEditor.name_text f)) "") as [|Hname];
    cbn [negb]; [done|].
  intros [= <-]. cbn [TypeEntry.name TypeEntry.flags TypeEntry.category
    TypeEntry.usages TypeEntry.values TypeEntry.tags].
  assert (∀ k, map_fold (λ k (checked : bool) fl,
                           <[k := if checked then 1%Z else 0%Z]> fl)
                 TypeEntry.default_flags (TypeEditor.flag_checks f) !! k
               = flag_value <$> TypeEditor.flag_checks f !! k) as Hfl.
  { intros k. rewrite collected_flags.
    destruct (TypeEditor.flag_checks f !! k) eqn:Hk; [done|].
    apply not_elem_of_dom in Hk. rewrite Hdom, <-dom_default_flags in Hk.
    by apply not_elem_of_dom in Hk. }
  split_and!; try done.
  - apply set_eq. intros k. rewrite <-Hdom, !elem_of_dom, Hfl.
    by rewrite fmap_is_Some.
  - destruct (String.eqb_spec (Py.strip (TypeEditor.category_text f)) "");
      cbn [negb]; congruence.
Qed.

(** X18: [collect_entry] refuses exactly the forms whose name is blank.  A
    record it returns has the stripped, non-empty name, the six flags with 1
    for a ticked box and 0 for an unticked one, and a category that is the
    stripped text or absent, never the empty string. *)
Theorem collect_entry_invariants (f : TypeEditor.form) :
  dom (TypeEditor.flag_checks f) = FLAG_KEYS →
  (TypeEditor.collect_entry f = None ↔ Py.strip (TypeEditor.name_text f) = "")
  ∧ ∀ e, TypeEditor.collect_entry f = Some e →
      TypeEntry.name e = Py.strip (TypeEditor.name_text f)
      ∧ TypeEntry.name e ≠ ""
      ∧ dom (TypeEntry.flags e) = FLAG_KEYS
      ∧ (∀ (k : string) (b : bool), TypeEditor.flag_checks f !! k = Some b →
                TypeEntry.flags e !! k = Some (if b then 1%Z else 0%Z))
      ∧ TypeEntry.category e
        = (if String.eqb (Py.strip (TypeEditor.category_text f)) "" then None
           else Some (Py.strip (TypeEditor.category_text f))).
Proof.
  intros Hdom. split.
  - unfold TypeEditor.collect_entry, Py.truthy. cbv zeta.
    destruct (String.eqb_spec (Py.strip (TypeEditor.name_text f)) ""); cbn [negb];
      split; done.
  - intros e He.
    destruct (collect_entry_spec f e Hdom He) as (Hn & Hne & Hd & Hfl & _).
    split_and!; try done.
    + intros k b Hk. by rewrite Hfl, Hk.
    + revert He. unfold TypeEditor.collect_entry, Py.truthy. cbv zeta.
      destruct (negb _); [done|]. intros [= <-]. cbn [TypeEntry.category].
      by destruct (String.eqb (Py.strip (TypeEditor.category_text f)) "").
Qed.

Lemma collect_entry_invariants_witness :
  ∃ e, TypeEditor.collect_entry sample_form = Some e
       ∧ TypeEntry.name e = "M4A1"
       ∧ TypeEntry.category e = Some "weapons"
       ∧ TypeEntry.flags e !! "deloot" = Some 1%Z
       ∧ TypeEntry.flags e !! "crafted" = Some 0%Z.
Proof.
  destruct (TypeEditor.collect_entry sample_form) as [e|] eqn:He;
    [|vm_compute in He; discriminate He].
  destruct (collect_entry_invariants sample_form) as [_ Hinv].
  - vm_compute. reflexivity.
  - destruct (Hinv e He) as (Hn & _ & _ & Hfl & Hcat).
    exists e. split; [reflexivity|]. split; [exact Hn|]. split; [exact Hcat|].
    split; [apply (Hfl "deloot" true)|apply (Hfl "crafted" false)]; reflexivity.
Defined.

(** X19: what the editor collects survives a pass through [to_xml] and
    [from_xml] unchanged, as long as the three list editors hold no empty
    item. *)
Theorem collected_entry_roundtrips (f : TypeEditor.form) (e : TypeEntry.t) :
  dom (TypeEditor.flag_checks f) = FLAG_KEYS →
  Forall (λ x, x ≠ "") (TypeEditor.usage_items f) →
  Forall (λ x, x ≠ "") (TypeEditor.value_items f) →
  Forall (λ x, x ≠ "") (TypeEditor.tag_items f) →
  TypeEditor.collect_entry f = Some e →
  TypeEntry.from_xml (TypeEntry.to_xml e) = Py.ret e.
Proof.
  intros Hdom Hus Hvs Hts He.
  destruct (collect_entry_spec f e Hdom He)
    as (_ & _ & Hd & _ & Hcat & Hu & Hv & Ht).
  apply from_xml_to_xml_well_formed. unfold well_formed.
  rewrite Hu, Hv, Ht. by split_and!.
Qed.

Lemma collected_entry_roundtrips_witness :
  ∃ e, TypeEditor.collect_entry sample_form = Some e
       ∧ TypeEntry.from_xml (TypeEntry.to_xml e) = Py.ret e.
Proof.
  destruct (TypeEditor.collect_entry sample_form) as [e|] eqn:He;
    [|vm_compute in He; discriminate He].
  exists e. split; [reflexivity|].
  apply (collected_entry_roundtrips sample_form e).
  - vm_compute. reflexivity.
  - repeat constructor; discriminate.
  - repeat constructor; discriminate.
  - constructor.
  - exact He.
Defined.

End Widgets.
